(** * boat_simulator: the physics engine node and the data collection node

    A shallow embedding of

    - [boat_simulator/nodes/physics_engine/physics_engine_node.py]
      (class [PhysicsEngineNode]) and
    - [boat_simulator/nodes/data_collection/data_collection_node.py]
      (class [DataCollectionNode]).

    Both classes are rclpy nodes: a set of private fields, and callbacks that
    the executor runs one at a time (timers, subscriptions, futures of the
    action client).  A callback is embedded as a computation in a small state
    monad over a [World]: the fields of the node together with the objects of
    the middleware that the callback reads or writes (publishers, the logger,
    the futures held by the action client).  The executor is the function
    [step], which runs the callback that an [Event] triggers.

    Python [float] values are idealised as exact rationals ([Q]): a message
    field only carries them, and where the code computes with them (the time
    stamp of the kinematics message) rounding is not modelled. *)

From Stdlib Require Import ZArith QArith Qabs Qround Lqa String Ascii.
From Stdlib Require Import DecimalString DecimalPos DecimalZ.
From stdpp Require Import base tactics option list.

#[local] Set Warnings "-register-all".
#[local] Open Scope string_scope.
#[local] Open Scope list_scope.
#[local] Open Scope Z_scope.

(** ** Scalars *)

(** [boat_simulator.common.types.Scalar] (a Python number). *)
Definition Scalar : Type := Q.
Bind Scope Q_scope with Scalar.

(** [int(x)] on a float: truncation towards zero. *)
Definition py_int (x : Q) : Z := Z.quot (Qnum x) (Zpos (Qden x)).

(** [divmod(a, b)] on floats: the floored quotient and the remainder that
    has the sign of [b]. *)
Definition divmod (a b : Q) : Q * Q :=
  let q := inject_Z (Qfloor (a / b)) in (q, (a - q * b)%Q).

(** [str(n)] on an int. *)
Definition str (n : Z) : string := NilZero.string_of_int (Z.to_int n).

(** ** Messages of [custom_interfaces]

    Only the fields that the nodes assign or read are kept. *)

Module HelperLatLon.
Record t : Type := mk { latitude : Scalar; longitude : Scalar }.
End HelperLatLon.

Module HelperSpeed.
Record t : Type := mk { speed : Scalar }.
End HelperSpeed.

Module HelperHeading.
Record t : Type := mk { heading : Scalar }.
End HelperHeading.

Module GPS.
Record t : Type := mk {
  lat_lon : HelperLatLon.t;
  speed : HelperSpeed.t;
  heading : HelperHeading.t
}.
End GPS.

Module WindSensor.
Record t : Type := mk { speed : HelperSpeed.t; direction : Z }.
End WindSensor.

Module WindSensors.
Record t : Type := mk { wind_sensors : list WindSensor.t }.
End WindSensors.

Module DesiredHeading.
Record t : Type := mk { heading : HelperHeading.t }.
End DesiredHeading.

(** [geometry_msgs]: a triple of coordinates, and a quaternion. *)
Module Vector3.
Record t : Type := mk { x : Scalar; y : Scalar; z : Scalar }.
End Vector3.

Module Quaternion.
Record t : Type := mk { x : Scalar; y : Scalar; z : Scalar; w : Scalar }.
End Quaternion.

Module Pose.
Record t : Type := mk { position : Vector3.t; orientation : Quaternion.t }.
End Pose.

(** [velocity], [acceleration] and [net_wrench] all have two triples. *)
Module Twist.
Record t : Type := mk { linear : Vector3.t; angular : Vector3.t }.
End Twist.

Module Wrench.
Record t : Type := mk { force : Vector3.t; torque : Vector3.t }.
End Wrench.

Module SimWorldStateKinematics.
Record t : Type := mk {
  pose : Pose.t;
  velocity : Twist.t;
  acceleration : Twist.t;
  net_wrench : Wrench.t
}.
End SimWorldStateKinematics.

Module Time.
Record t : Type := mk { sec : Z; nanosec : Z }.
End Time.

Module Header.
Record t : Type := mk { stamp : Time.t; frame_id : string }.
End Header.

Module SimWorldState.
Record t : Type := mk {
  global_gps : GPS.t;
  global_reference_kinematics : SimWorldStateKinematics.t;
  relative_reference_kinematics : SimWorldStateKinematics.t;
  header : Header.t
}.
End SimWorldState.

(** The action [SimRudderActuation]: goal, feedback and result. *)
Module SimRudderActuation.
Record Goal : Type := mkGoal { desired_heading : option DesiredHeading.t }.
Record Feedback : Type := mkFeedback { rudder_angle : Scalar }.
Record Result : Type := mkResult { remaining_angular_distance : Scalar }.
End SimRudderActuation.

(** ** The node and the middleware objects it talks to *)

(** The private fields set in [PhysicsEngineNode.__init__]. *)
Record PhysicsEngineNode : Type := mkNode {
  publish_counter : Z;
  rudder_angle : Scalar;
  sail_trim_tab_angle : Scalar;
  desired_heading : option DesiredHeading.t
}.

(** The node's callbacks, as the values that are handed to the action client
    ([feedback_callback=...], [add_done_callback(...)]). *)
Inductive Callback : Type :=
| rudder_action_goal_response_callback_ref
| rudder_action_get_result_callback_ref
| rudder_action_feedback_callback_ref.

(** [rclpy.action.client.ClientGoalHandle]: which goal it stands for, and
    whether the server accepted it. *)
Record ClientGoalHandle : Type := mkHandle { goal_id : nat; accepted : bool }.

(** [rclpy.task.Future]: not done ([None]) or done with a result, and the
    callbacks added with [add_done_callback]. *)
Record Future (A : Type) : Type := mkFuture {
  fut_result : option A;
  fut_done_callbacks : list Callback
}.
Arguments mkFuture {A} _ _.
Arguments fut_result {A} _.
Arguments fut_done_callbacks {A} _.

(** One goal message built by the node, with what the action client has
    attached to it: the feedback callback and the future of
    [send_goal_async] (absent when the goal was never sent), and the future
    of [get_result_async] (absent when the result was never asked for). *)
Record Request : Type := mkRequest {
  goal : SimRudderActuation.Goal;
  feedback_callback : option Callback;
  send_goal_future : option (Future (option ClientGoalHandle));
  get_result_future : option (Future SimRudderActuation.Result)
}.

Inductive Severity : Type := DEBUG | INFO | WARN | ERROR.

(** The texts that the node logs; the values interpolated in an f-string are
    the arguments. *)
Inductive LogText : Type :=
| initializing_node
| initializing_subscriptions
| done_initializing_subscriptions
| initializing_publishers
| done_initializing_publishers
| initializing_timer_callbacks
| done_initializing_timer_callbacks
| node_initialization_complete
| publishing_simulated_data
| publishing_gps (msg : GPS.t)
| publishing_wind_sensors (msg : WindSensors.t)
| publishing_kinematics
| received_desired_heading (msg : DesiredHeading.t)
| initiating_goal_request
| goal_request_timed_out (timeout_sec : Scalar)
| completed_goal_request
| goal_rejected
| goal_accepted
| action_finished (residual_2f : string) (final_rudder_angle : Scalar)
| reported_rudder_angle (angle : Scalar).

Record World : Type := mkWorld {
  node : PhysicsEngineNode;
  (** the ROS parameter [pub_period_sec] *)
  pub_period : Scalar;
  (** whether the rudder action server answers within a timeout *)
  server_ready : bool;
  (** the goal messages built so far, oldest first *)
  requests : list Request;
  (** what [get_logger()] has received, oldest first *)
  logger : list (Severity * LogText);
  (** what each publisher has sent, oldest first *)
  gps_pub : list GPS.t;
  wind_sensors_pub : list WindSensors.t;
  kinematics_pub : list SimWorldState.t
}.

(** ** The monad of the callbacks: state and Python exceptions *)

Inductive Exception : Type := AttributeError | KeyError.

Inductive Outcome (A : Type) : Type :=
| Return (a : A)
| Raise (e : Exception).
Arguments Return {A} _.
Arguments Raise {A} _.

(** A computation over a state [S] that returns an [A] or raises. *)
Definition M (S A : Type) : Type := S -> Outcome A * S.

#[local] Instance M_ret {S : Type} : MRet (M S) := fun A a s => (Return a, s).
#[local] Instance M_bind {S : Type} : MBind (M S) :=
  fun A B k m s =>
    match m s with
    | (Return a, s') => k a s'
    | (Raise e, s') => (Raise e, s')
    end.

Definition raise {S A : Type} (e : Exception) : M S A := fun s => (Raise e, s).

(** The state after a computation, and whether it returned. *)
Definition exec {S A : Type} (m : M S A) (s : S) : S := snd (m s).
Definition returns {S A : Type} (m : M S A) (s : S) : bool :=
  match fst (m s) with Return _ => true | Raise _ => false end.

Fixpoint for_each {S A : Type} (f : A -> M S unit) (l : list A) : M S unit :=
  match l with
  | [] => mret tt
  | a :: l' => f a;; for_each f l'
  end.

Definition get_node : M World PhysicsEngineNode := fun w => (Return (node w), w).

Definition update_node (f : PhysicsEngineNode -> PhysicsEngineNode) : M World unit :=
  fun w => (Return tt,
            mkWorld (f (node w)) (pub_period w) (server_ready w) (requests w)
              (logger w) (gps_pub w) (wind_sensors_pub w) (kinematics_pub w)).

Definition get_pub_period : M World Scalar := fun w => (Return (pub_period w), w).

Definition log (s : Severity) (t : LogText) : M World unit :=
  fun w => (Return tt,
            mkWorld (node w) (pub_period w) (server_ready w) (requests w)
              (logger w ++ [(s, t)]) (gps_pub w) (wind_sensors_pub w)
              (kinematics_pub w)).

Definition gps_pub_publish (msg : GPS.t) : M World unit :=
  fun w => (Return tt,
            mkWorld (node w) (pub_period w) (server_ready w) (requests w)
              (logger w) (gps_pub w ++ [msg]) (wind_sensors_pub w)
              (kinematics_pub w)).

Definition wind_sensors_pub_publish (msg : WindSensors.t) : M World unit :=
  fun w => (Return tt,
            mkWorld (node w) (pub_period w) (server_ready w) (requests w)
              (logger w) (gps_pub w) (wind_sensors_pub w ++ [msg])
              (kinematics_pub w)).

Definition kinematics_pub_publish (msg : SimWorldState.t) : M World unit :=
  fun w => (Return tt,
            mkWorld (node w) (pub_period w) (server_ready w) (requests w)
              (logger w) (gps_pub w) (wind_sensors_pub w)
              (kinematics_pub w ++ [msg])).

Definition get_requests : M World (list Request) :=
  fun w => (Return (requests w), w).

Definition set_requests (rs : list Request) : M World unit :=
  fun w => (Return tt,
            mkWorld (node w) (pub_period w) (server_ready w) rs
              (logger w) (gps_pub w) (wind_sensors_pub w) (kinematics_pub w)).

Definition set_server_ready (up : bool) : M World unit :=
  fun w => (Return tt,
            mkWorld (node w) (pub_period w) up (requests w)
              (logger w) (gps_pub w) (wind_sensors_pub w) (kinematics_pub w)).

(** ** Formatting *)

(** Rounding of a non-negative rational to the nearest integer, ties to the
    even one. *)
Definition round_half_even (x : Q) : Z :=
  let n := Qfloor x in
  match Qcompare (x - inject_Z n) (1 # 2) with
  | Lt => n
  | Gt => n + 1
  | Eq => if Z.even n then n else n + 1
  end.

Definition two_digits (d : Z) : string :=
  if d <? 10 then ("0" ++ str d)%string else str d.

(** The format specification [:.2f]: sign, integer part, two decimals. *)
Definition fmt_2f (x : Q) : string :=
  let h := round_half_even (Qabs x * 100) in
  let sign := if Qnum x <? 0 then "-" else "" in
  let units := str (h / 100) in
  let decimals := two_digits (h mod 100) in
  (sign ++ units ++ "." ++ decimals)%string.

(** ** Publishing: [__publish] and the three messages *)

Definition publish_gps : M World unit :=
  let msg := GPS.mk (HelperLatLon.mk 0 0) (HelperSpeed.mk 0) (HelperHeading.mk 0) in
  gps_pub_publish msg;;
  log INFO (publishing_gps msg).

Definition publish_wind_sensors : M World unit :=
  let windSensor1 := WindSensor.mk (HelperSpeed.mk 0) 0 in
  let windSensor2 := WindSensor.mk (HelperSpeed.mk 0) 0 in
  let msg := WindSensors.mk [windSensor1; windSensor2] in
  wind_sensors_pub_publish msg;;
  log INFO (publishing_wind_sensors msg).

Definition zero3 : Vector3.t := Vector3.mk 0 0 0.

(** The value assigned to both [global_reference_kinematics] and
    [relative_reference_kinematics]. *)
Definition kinematics_at_rest : SimWorldStateKinematics.t :=
  SimWorldStateKinematics.mk
    (Pose.mk zero3 (Quaternion.mk 0 0 0 1))
    (Twist.mk zero3 zero3)
    (Twist.mk zero3 zero3)
    (Wrench.mk zero3 zero3).

Definition publish_kinematics : M World unit :=
  nd ← get_node;
  period ← get_pub_period;
  let '(sec, nanosec) :=
    divmod (period * inject_Z (publish_counter nd)) 1 in
  let msg :=
    SimWorldState.mk
      (GPS.mk (HelperLatLon.mk 0 0) (HelperSpeed.mk 0) (HelperHeading.mk 0))
      kinematics_at_rest kinematics_at_rest
      (Header.mk (Time.mk (py_int sec) (py_int (nanosec * 1000000000)))
         (str (publish_counter nd))) in
  kinematics_pub_publish msg;;
  log INFO publishing_kinematics.

Definition publish : M World unit :=
  log INFO publishing_simulated_data;;
  publish_gps;;
  publish_wind_sensors;;
  publish_kinematics;;
  update_node (fun nd =>
    mkNode (publish_counter nd + 1) (rudder_angle nd) (sail_trim_tab_angle nd)
      (desired_heading nd)).

Definition desired_heading_sub_callback (msg : DesiredHeading.t) : M World unit :=
  log INFO (received_desired_heading msg);;
  update_node (fun nd =>
    mkNode (publish_counter nd) (rudder_angle nd) (sail_trim_tab_angle nd)
      (Some msg)).

(** ** The action client, as far as the node uses it *)

(** A future is named by the request it hangs off. *)
Inductive FutureRef : Type :=
| send_goal_future_of (goal_msg : nat)
| get_result_future_of (goal_msg : nat).

Definition update_requests (f : list Request -> list Request) : M World unit :=
  rs ← get_requests; set_requests (f rs).

(** [SimRudderActuation.Goal()]: a fresh goal message, all fields at their
    defaults.  Its position in [requests] stands for the Python object. *)
Definition new_Goal : M World nat :=
  rs ← get_requests;
  let default :=
    SimRudderActuation.mkGoal (Some (DesiredHeading.mk (HelperHeading.mk 0))) in
  set_requests (rs ++ [mkRequest default None None None]);;
  mret (length rs).

(** [goal_msg.desired_heading = value] *)
Definition set_desired_heading
    (goal_msg : nat) (value : option DesiredHeading.t) : M World unit :=
  update_requests (alter (fun r =>
    mkRequest (SimRudderActuation.mkGoal value) (feedback_callback r)
      (send_goal_future r) (get_result_future r)) goal_msg).

(** [ActionClient.wait_for_server(timeout_sec)]: [True] when the server
    answers in time. *)
Definition wait_for_server (timeout_sec : Scalar) : M World bool :=
  fun w => (Return (server_ready w), w).

(** [ActionClient.send_goal_async(goal, feedback_callback)]: the goal is
    sent, the feedback callback is kept for it, and a future that is not
    done is returned. *)
Definition send_goal_async (goal_msg : nat) (fb : Callback) : M World FutureRef :=
  update_requests (alter (fun r =>
    mkRequest (goal r) (Some fb) (Some (mkFuture None [])) (get_result_future r))
    goal_msg);;
  mret (send_goal_future_of goal_msg).

(** [ClientGoalHandle.get_result_async()]: the result is asked for, and a
    future that is not done is returned. *)
Definition get_result_async (goal_handle : ClientGoalHandle) : M World FutureRef :=
  update_requests (alter (fun r =>
    mkRequest (goal r) (feedback_callback r) (send_goal_future r)
      (Some (mkFuture None []))) (goal_id goal_handle));;
  mret (get_result_future_of (goal_id goal_handle)).

Definition add_callback {A : Type} (cb : Callback) (f : Future A) : Future A :=
  mkFuture (fut_result f) (fut_done_callbacks f ++ [cb]).

(** [Future.add_done_callback(callback)], on a future that is not done (the
    node adds its callbacks to futures it has just received). *)
Definition add_done_callback (future : FutureRef) (cb : Callback) : M World unit :=
  match future with
  | send_goal_future_of i =>
      update_requests (alter (fun r =>
        mkRequest (goal r) (feedback_callback r)
          (add_callback cb <$> send_goal_future r) (get_result_future r)) i)
  | get_result_future_of i =>
      update_requests (alter (fun r =>
        mkRequest (goal r) (feedback_callback r) (send_goal_future r)
          (add_callback cb <$> get_result_future r)) i)
  end.

(** ** The rudder actuation callbacks *)

(** Modelled from the spec: [boat_simulator/nodes/physics_engine/decorators.py]
    is not among the sources, and the spec has no sentence on the decorator
    [require_all_subs_active].  By its name and by the node's one
    subscription, the decorated callback runs when [desired_heading] has
    been received (is not [None]), and is skipped otherwise. *)
Definition require_all_subs_active (func : M World unit) : M World unit :=
  nd ← get_node;
  if desired_heading nd is Some _ then func else mret tt.

Section RudderActuation.

(** [Constants.ACTION_SEND_GOAL_TIMEOUT_SEC], of
    [boat_simulator/common/constants.py] (not among the sources). *)
Variable ACTION_SEND_GOAL_TIMEOUT_SEC : Scalar.

(** The body of [__rudder_action_send_goal]. *)
Definition rudder_action_send_goal_body : M World unit :=
  log DEBUG initiating_goal_request;;
  goal_msg ← new_Goal;
  nd ← get_node;
  set_desired_heading goal_msg (desired_heading nd);;
  ready ← wait_for_server ACTION_SEND_GOAL_TIMEOUT_SEC;
  let is_timed_out := negb ready in
  if is_timed_out then
    log WARN (goal_request_timed_out ACTION_SEND_GOAL_TIMEOUT_SEC)
  else
    send_goal_future ←
      send_goal_async goal_msg rudder_action_feedback_callback_ref;
    add_done_callback send_goal_future rudder_action_goal_response_callback_ref;;
    log DEBUG completed_goal_request.

(** [__rudder_action_send_goal], as the timer calls it. *)
Definition rudder_action_send_goal : M World unit :=
  require_all_subs_active rudder_action_send_goal_body.

Definition rudder_action_goal_response_callback
    (future : Future (option ClientGoalHandle)) : M World unit :=
  let goal_handle := mjoin (fut_result future) in
  match goal_handle with
  | None => log WARN goal_rejected
  | Some h =>
      if negb (accepted h) then log WARN goal_rejected
      else
        log DEBUG goal_accepted;;
        rudder_get_result_future ← get_result_async h;
        add_done_callback rudder_get_result_future
          rudder_action_get_result_callback_ref
  end.

Definition rudder_action_get_result_callback
    (future : Future SimRudderActuation.Result) : M World unit :=
  match fut_result future with
  | None => raise AttributeError
  | Some result =>
      nd ← get_node;
      log DEBUG
        (action_finished
           (fmt_2f (SimRudderActuation.remaining_angular_distance result))
           (rudder_angle nd))
  end.

Definition rudder_action_feedback_callback
    (feedback_msg : SimRudderActuation.Feedback) : M World unit :=
  update_node (fun nd =>
    mkNode (publish_counter nd) (SimRudderActuation.rudder_angle feedback_msg)
      (sail_trim_tab_angle nd) (desired_heading nd));;
  nd ← get_node;
  log DEBUG (reported_rudder_angle (rudder_angle nd)).

(** ** The executor *)

(** What a callback is called with. *)
Inductive CallbackArg : Type :=
| done_send_goal_future (f : Future (option ClientGoalHandle))
| done_get_result_future (f : Future SimRudderActuation.Result)
| feedback_message (m : SimRudderActuation.Feedback).

(** A call of a callback value; an argument of the wrong kind has none of
    the attributes that the callback reads. *)
Definition invoke (cb : Callback) (arg : CallbackArg) : M World unit :=
  match cb, arg with
  | rudder_action_goal_response_callback_ref, done_send_goal_future f =>
      rudder_action_goal_response_callback f
  | rudder_action_get_result_callback_ref, done_get_result_future f =>
      rudder_action_get_result_callback f
  | rudder_action_feedback_callback_ref, feedback_message m =>
      rudder_action_feedback_callback m
  | _, _ => raise AttributeError
  end.

(** The goal response of the server reaches the client: the future of
    [send_goal_async], if it is still waiting, is done with a goal handle
    (or with nothing), and its callbacks run. *)
Definition deliver_goal_response (i : nat) (response : option bool) : M World unit :=
  rs ← get_requests;
  match rs !! i with
  | Some (mkRequest g fb (Some (mkFuture None cbs)) res) =>
      let future := mkFuture (Some (mkHandle i <$> response)) cbs in
      set_requests (<[i := mkRequest g fb (Some future) res]> rs);;
      for_each (fun cb => invoke cb (done_send_goal_future future)) cbs
  | _ => mret tt
  end.

(** The result of the server reaches the client: the future of
    [get_result_async], if there is one and it is still waiting, is done,
    and its callbacks run. *)
Definition deliver_result
    (i : nat) (response : SimRudderActuation.Result) : M World unit :=
  rs ← get_requests;
  match rs !! i with
  | Some (mkRequest g fb sg (Some (mkFuture None cbs))) =>
      let future := mkFuture (Some response) cbs in
      set_requests (<[i := mkRequest g fb sg (Some future)]> rs);;
      for_each (fun cb => invoke cb (done_get_result_future future)) cbs
  | _ => mret tt
  end.

(** The server publishes feedback for a goal while it executes it: after it
    has accepted the goal, and until its result has been delivered.  The
    client passes the message to the feedback callback kept for the goal. *)
Definition executing (r : Request) : bool :=
  match send_goal_future r, get_result_future r with
  | Some (mkFuture (Some (Some h)) _), Some (mkFuture (Some _) _) => false
  | Some (mkFuture (Some (Some h)) _), _ => accepted h
  | _, _ => false
  end.

Definition deliver_feedback
    (i : nat) (feedback_msg : SimRudderActuation.Feedback) : M World unit :=
  rs ← get_requests;
  match rs !! i with
  | Some r =>
      match feedback_callback r with
      | Some cb =>
          if executing r then invoke cb (feedback_message feedback_msg)
          else mret tt
      | None => mret tt
      end
  | None => mret tt
  end.

Inductive Event : Type :=
| publish_timer
| rudder_timer
| desired_heading_received (msg : DesiredHeading.t)
| server_availability (up : bool)
| goal_response (i : nat) (response : option bool)
| feedback (i : nat) (feedback_msg : SimRudderActuation.Feedback)
| result (i : nat) (response : SimRudderActuation.Result).

Definition step (e : Event) : M World unit :=
  match e with
  | publish_timer => publish
  | rudder_timer => rudder_action_send_goal
  | desired_heading_received msg => desired_heading_sub_callback msg
  | server_availability up => set_server_ready up
  | goal_response i response => deliver_goal_response i response
  | feedback i feedback_msg => deliver_feedback i feedback_msg
  | result i response => deliver_result i response
  end.

(** [rclpy.spin]: the events are handled in turn; an exception that leaves
    a callback ends the loop. *)
Definition run (events : list Event) : M World unit := for_each step events.

End RudderActuation.

(** The world when [PhysicsEngineNode.__init__] returns. *)
Definition initial_world (period : Scalar) (up : bool) : World :=
  mkWorld (mkNode 0 0 0 None) period up []
    [(DEBUG, initializing_node);
     (DEBUG, initializing_subscriptions);
     (DEBUG, done_initializing_subscriptions);
     (DEBUG, initializing_publishers);
     (DEBUG, done_initializing_publishers);
     (DEBUG, initializing_timer_callbacks);
     (DEBUG, done_initializing_timer_callbacks);
     (DEBUG, node_initialization_complete)]
    [] [] [].

(** ** The request states of the specification

    The node keeps no object for an actuation request.  The definitions
    below follow the words of the specification (its [ActuationRequest]:
    [state], [result]) and read them off the objects that the code does
    create for a goal: the two futures of the action client. *)

Inductive RequestState : Type :=
| Pending | Accepted | Rejected | Completed | TimedOut.

(** - never sent: the wait for the server timed out;
    - sent, no goal response yet: pending;
    - goal response received and no result asked for: rejected;
    - result asked for: accepted, and completed once the result is in. *)
Definition request_state (r : Request) : RequestState :=
  match send_goal_future r with
  | None => TimedOut
  | Some send_goal =>
      match fut_result send_goal with
      | None => Pending
      | Some _ =>
          match get_result_future r with
          | None => Rejected
          | Some get_result =>
              if fut_result get_result is Some _ then Completed else Accepted
          end
      end
  end.

(** The residual carried by the result of the request, when it has one. *)
Definition request_result (r : Request) : option Scalar :=
  get_result ← get_result_future r;
  SimRudderActuation.remaining_angular_distance <$> fut_result get_result.

(** A request is outstanding while it is pending or accepted. *)
Definition outstanding (r : Request) : bool :=
  match request_state r with
  | Pending | Accepted => true
  | Rejected | Completed | TimedOut => false
  end.

Definition terminal (s : RequestState) : bool :=
  match s with
  | Rejected | Completed | TimedOut => true
  | Pending | Accepted => false
  end.

(** The transitions of the state machine of the specification. *)
Inductive transition : RequestState -> RequestState -> Prop :=
| accept : transition Pending Accepted
| reject : transition Pending Rejected
| time_out : transition Pending TimedOut
| complete : transition Accepted Completed.

(** The number of outstanding requests. *)
Definition count_outstanding (w : World) : nat :=
  length (List.filter outstanding (requests w)).

(** The fractional part [frac(x)]. *)
Definition frac (x : Q) : Q := (x - inject_Z (Qfloor x))%Q.

(** ** The requests that the callbacks build

    A request of a world that the node has reached from [initial_world] has
    one of six forms, one for each path through
    [__rudder_action_send_goal], [__rudder_action_goal_response_callback]
    and [__rudder_action_get_result_callback]. *)

Definition sent (g : SimRudderActuation.Goal)
    (response : option (option ClientGoalHandle))
    (get_result : option (Future SimRudderActuation.Result)) : Request :=
  mkRequest g (Some rudder_action_feedback_callback_ref)
    (Some (mkFuture response [rudder_action_goal_response_callback_ref]))
    get_result.

Definition result_future (response : option SimRudderActuation.Result) :
    Future SimRudderActuation.Result :=
  mkFuture response [rudder_action_get_result_callback_ref].

Inductive well_formed : Request -> Prop :=
| never_sent g :
    well_formed (mkRequest g None None None)
| awaiting_goal_response g :
    well_formed (sent g None None)
| without_goal_handle g :
    well_formed (sent g (Some None) None)
| declined g i :
    well_formed (sent g (Some (Some (mkHandle i false))) None)
| awaiting_result g i :
    well_formed
      (sent g (Some (Some (mkHandle i true))) (Some (result_future None)))
| finished g i response :
    well_formed
      (sent g (Some (Some (mkHandle i true)))
         (Some (result_future (Some response)))).

(** The world with other requests and with more lines in the log. *)
Definition with_requests (rs : list Request)
    (lines : list (Severity * LogText)) (w : World) : World :=
  mkWorld (node w) (pub_period w) (server_ready w) rs (logger w ++ lines)
    (gps_pub w) (wind_sensors_pub w) (kinematics_pub w).

(** The world with another rudder angle and with more lines in the log. *)
Definition with_rudder_angle (angle : Scalar)
    (lines : list (Severity * LogText)) (w : World) : World :=
  mkWorld
    (mkNode (publish_counter (node w)) angle (sail_trim_tab_angle (node w))
       (desired_heading (node w)))
    (pub_period w) (server_ready w) (requests w) (logger w ++ lines)
    (gps_pub w) (wind_sensors_pub w) (kinematics_pub w).

(** The number of firings of the publish timer among some events. *)
Definition publish_cycles (events : list Event) : nat :=
  length (List.filter (fun e => if e is publish_timer then true else false)
            events).

(** ** What one event does, as a relation *)

(** The header of the kinematics message of cycle [n], in the words of the
    claim on it: [sec = floor(n * pub_period)],
    [nanosec = int(frac(n * pub_period) * 1e9)], [frame_id = str(n)]. *)
Definition stamped_header (period : Scalar) (n : Z) : Header.t :=
  let t := (period * inject_Z n)%Q in
  Header.mk (Time.mk (Qfloor t) (py_int (frac t * 1000000000))) (str n).

Definition gps_zero : GPS.t :=
  GPS.mk (HelperLatLon.mk 0 0) (HelperSpeed.mk 0) (HelperHeading.mk 0).

Definition wind_sensors_zero : WindSensors.t :=
  WindSensors.mk
    [WindSensor.mk (HelperSpeed.mk 0) 0; WindSensor.mk (HelperSpeed.mk 0) 0].

(** The kinematics message of cycle [n]. *)
Definition kinematics_message (period : Scalar) (n : Z) : SimWorldState.t :=
  SimWorldState.mk gps_zero kinematics_at_rest kinematics_at_rest
    (stamped_header period n).

(** The world after one publish cycle. *)
Definition published (w : World) : World :=
  mkWorld
    (mkNode (publish_counter (node w) + 1) (rudder_angle (node w))
       (sail_trim_tab_angle (node w)) (desired_heading (node w)))
    (pub_period w) (server_ready w) (requests w)
    (logger w ++
     [(INFO, publishing_simulated_data); (INFO, publishing_gps gps_zero);
      (INFO, publishing_wind_sensors wind_sensors_zero);
      (INFO, publishing_kinematics)])
    (gps_pub w ++ [gps_zero])
    (wind_sensors_pub w ++ [wind_sensors_zero])
    (kinematics_pub w ++
     [kinematics_message (pub_period w) (publish_counter (node w))]).

Definition heading_stored (msg : DesiredHeading.t) (w : World) : World :=
  mkWorld
    (mkNode (publish_counter (node w)) (rudder_angle (node w))
       (sail_trim_tab_angle (node w)) (Some msg))
    (pub_period w) (server_ready w) (requests w)
    (logger w ++ [(INFO, received_desired_heading msg)])
    (gps_pub w) (wind_sensors_pub w) (kinematics_pub w).

Definition server_set (up : bool) (w : World) : World :=
  mkWorld (node w) (pub_period w) up (requests w) (logger w) (gps_pub w)
    (wind_sensors_pub w) (kinematics_pub w).

(** [handles timeout_sec w e w']: the event [e] takes the world [w] to
    [w'].  There is one rule for each path through the callback that the
    event runs. *)
Inductive handles (timeout_sec : Scalar) (w : World) : Event -> World -> Prop :=
| publish_cycle :
    handles timeout_sec w publish_timer (published w)
| goal_sent h :
    desired_heading (node w) = Some h -> server_ready w = true ->
    handles timeout_sec w rudder_timer
      (with_requests
         (requests w ++ [sent (SimRudderActuation.mkGoal (Some h)) None None])
         [(DEBUG, initiating_goal_request); (DEBUG, completed_goal_request)]
         w)
| goal_timed_out h :
    desired_heading (node w) = Some h -> server_ready w = false ->
    handles timeout_sec w rudder_timer
      (with_requests
         (requests w ++
          [mkRequest (SimRudderActuation.mkGoal (Some h)) None None None])
         [(DEBUG, initiating_goal_request);
          (WARN, goal_request_timed_out timeout_sec)] w)
| goal_skipped :
    desired_heading (node w) = None ->
    handles timeout_sec w rudder_timer w
| heading_received msg :
    handles timeout_sec w (desired_heading_received msg) (heading_stored msg w)
| server_changed up :
    handles timeout_sec w (server_availability up) (server_set up w)
| response_accepted i g :
    requests w !! i = Some (sent g None None) ->
    handles timeout_sec w (goal_response i (Some true))
      (with_requests
         (<[i := sent g (Some (Some (mkHandle i true)))
                   (Some (result_future None))]> (requests w))
         [(DEBUG, goal_accepted)] w)
| response_rejected i g response :
    requests w !! i = Some (sent g None None) ->
    response = None \/ response = Some false ->
    handles timeout_sec w (goal_response i response)
      (with_requests
         (<[i := sent g (Some (mkHandle i <$> response)) None]> (requests w))
         [(WARN, goal_rejected)] w)
| response_ignored i response :
    (forall r, requests w !! i = Some r -> request_state r <> Pending) ->
    handles timeout_sec w (goal_response i response) w
| feedback_taken i r feedback_msg :
    requests w !! i = Some r -> request_state r = Accepted ->
    handles timeout_sec w (feedback i feedback_msg)
      (with_rudder_angle (SimRudderActuation.rudder_angle feedback_msg)
         [(DEBUG,
           reported_rudder_angle
             (SimRudderActuation.rudder_angle feedback_msg))] w)
| feedback_dropped i feedback_msg :
    (forall r, requests w !! i = Some r -> request_state r <> Accepted) ->
    handles timeout_sec w (feedback i feedback_msg) w
| result_taken i g j response :
    requests w !! i =
      Some (sent g (Some (Some (mkHandle j true))) (Some (result_future None))) ->
    handles timeout_sec w (result i response)
      (with_requests
         (<[i := sent g (Some (Some (mkHandle j true)))
                   (Some (result_future (Some response)))]> (requests w))
         [(DEBUG,
           action_finished
             (fmt_2f (SimRudderActuation.remaining_angular_distance response))
             (rudder_angle (node w)))] w)
| result_dropped i response :
    (forall r, requests w !! i = Some r -> request_state r <> Accepted) ->
    handles timeout_sec w (result i response) w.

(** Every request has one of the forms that the callbacks build. *)
Definition sound (w : World) : Prop := Forall well_formed (requests w).

(** The events of one accepted goal: submission, acceptance, some feedback,
    the result. *)
Definition accepted_goal_events (i : nat) (angles : list Scalar)
    (response : SimRudderActuation.Result) : list Event :=
  [rudder_timer; goal_response i (Some true)] ++
  map (fun angle => feedback i (SimRudderActuation.mkFeedback angle)) angles ++
  [result i response].

(** The world after feedback events, one for each angle, have reached the
    feedback callback. *)
Definition after_feedback (w : World) (angles : list Scalar) : World :=
  fold_left
    (fun w angle =>
       with_rudder_angle angle [(DEBUG, reported_rudder_angle angle)] w)
    angles w.

(** ** Inputs of the examples *)

Definition heading_of (x : Scalar) : DesiredHeading.t :=
  DesiredHeading.mk (HelperHeading.mk x).

(** The node has received the heading 0.5; the server is reachable. *)
Definition heading_known : World :=
  exec (run 2 [desired_heading_received (heading_of (1 # 2))])
    (initial_world 1 true).

(** One goal has been sent and waits for its goal response. *)
Definition one_goal_pending : World :=
  exec (run 2 [rudder_timer]) heading_known.

(** The goal has been accepted. *)
Definition one_goal_accepted : list Event :=
  [desired_heading_received (heading_of (1 # 2)); rudder_timer;
   goal_response 0 (Some true)].

(** ** Counting, for the invariants of a run *)

Definition state_eqb (s1 s2 : RequestState) : bool :=
  match s1, s2 with
  | Pending, Pending | Accepted, Accepted | Rejected, Rejected
  | Completed, Completed | TimedOut, TimedOut => true
  | _, _ => false
  end.

(** The number of requests in a given state. *)
Definition count_state (s : RequestState) (rs : list Request) : nat :=
  length (List.filter (fun r => state_eqb (request_state r) s) rs).

Definition is_rejected_line (line : Severity * LogText) : bool :=
  match line with
  | (WARN, goal_rejected) => true
  | _ => false
  end.

Definition is_timed_out_line (line : Severity * LogText) : bool :=
  match line with
  | (WARN, goal_request_timed_out _) => true
  | _ => false
  end.

Definition is_finished_line (line : Severity * LogText) : bool :=
  match line with
  | (DEBUG, action_finished _ _) => true
  | _ => false
  end.

(** The number of lines of a given kind in a log. *)
Definition count_lines (kind : Severity * LogText -> bool)
    (lines : list (Severity * LogText)) : nat :=
  length (List.filter kind lines).

(** The desired headings among some events, oldest first. *)
Definition headings_received (events : list Event) : list DesiredHeading.t :=
  omap (fun e => if e is desired_heading_received msg then Some msg else None)
    events.

(** The rudder angles of the feedback events among some events. *)
Definition angles_reported (events : list Event) : list Scalar :=
  omap (fun e =>
          if e is feedback _ m then Some (SimRudderActuation.rudder_angle m)
          else None)
    events.


(** * The data collection node *)

Module DataCollection.

(** ** Python values and dictionaries *)

(** The values that a message turns into
    ([rosidl_runtime_py.message_to_ordereddict]) and that the node stores
    next to them.  A dictionary keeps its items in insertion order. *)
Inductive PyValue : Type :=
| PyNone
| PyBool (b : bool)
| PyInt (n : Z)
| PyFloat (x : Scalar)
| PyStr (s : string)
| PyList (items : list PyValue)
| PyDict (items : list (string * PyValue)).

(** The truth value of an object, as [all] tests it. *)
Definition truthy (v : PyValue) : bool :=
  match v with
  | PyNone => false
  | PyBool b => b
  | PyInt n => negb (n =? 0)
  | PyFloat x => negb (Qeq_bool x 0)
  | PyStr s => negb (String.eqb s "")
  | PyList items => if items is [] then false else true
  | PyDict items => if items is [] then false else true
  end.

(** [d[key] = value]: the value of an existing key is replaced in place, a
    new key goes to the end. *)
Fixpoint dict_set {V : Type} (key : string) (value : V)
    (d : list (string * V)) : list (string * V) :=
  match d with
  | [] => [(key, value)]
  | (k, v) :: d' =>
      if String.eqb k key then (k, value) :: d'
      else (k, v) :: dict_set key value d'
  end.

Definition dict_keys {V : Type} (d : list (string * V)) : list string :=
  map fst d.

Definition dict_values {V : Type} (d : list (string * V)) : list V :=
  map snd d.

Fixpoint dict_get {V : Type} (key : string) (d : list (string * V)) : option V :=
  match d with
  | [] => None
  | (k, v) :: d' => if String.eqb k key then Some v else dict_get key d'
  end.

(** [key in d], on the keys of a dictionary. *)
Definition contains (key : string) (keys : list string) : bool :=
  existsb (String.eqb key) keys.

(** [all(iterable)] *)
Definition all (values : list PyValue) : bool := forallb truthy values.

(** The slice [l[::2]]; [l[1::2]] is the same slice of the tail. *)
Fixpoint every_other {A : Type} (l : list A) : list A :=
  match l with
  | [] => []
  | [a] => [a]
  | a :: _ :: l' => a :: every_other l'
  end.

Fixpoint zip {A B : Type} (l1 : list A) (l2 : list B) : list (A * B) :=
  match l1, l2 with
  | a :: l1', b :: l2' => (a, b) :: zip l1' l2'
  | _, _ => []
  end.

Definition newline : string := String (ascii_of_nat 10) "".

(** ** The node *)

(** The ROS parameters declared by the node. *)
Record Parameters : Type := mkParameters {
  file_name : string;
  qos_depth : Z;
  topics : list string;
  bag : bool;
  json : bool;
  write_period_sec : Scalar
}.

Inductive LogText : Type :=
| msg_type_does_not_exist (msg_type_name : string)
| json_file_already_exists (name : string).

(** The attributes of a [DataCollectionNode].  An attribute that only some
    paths of [__init__] assign is optional. *)
Record Node : Type := mkNode {
  parameters : Parameters;
  msg_types_dict : list string;
  sub_topic_names : list (string * string);
  (** the variable [topic_name] of [__init_subscriptions], which the
      callbacks of the subscriptions read when they are called *)
  topic_name : option string;
  (** the topics of the subscriptions created *)
  subscriptions : list string;
  data_to_write : option (list (string * PyValue));
  json_index_counter : option Z;
  (** the text written to the JSON file so far *)
  json_file : option string;
  (** the topic and message of every record written to the bag *)
  writer : option (list (string * PyValue));
  logger : list (Severity * LogText)
}.

Definition get : M Node Node := fun nd => (Return nd, nd).

Definition put (nd : Node) : M Node unit := fun _ => (Return tt, nd).

(** Reading an attribute; one that was never assigned raises. *)
Definition attribute {A : Type} (field : Node -> option A) : M Node A :=
  nd ← get;
  match field nd with
  | Some a => mret a
  | None => raise AttributeError
  end.

Definition set_sub_topic_names (d : list (string * string)) : M Node unit :=
  nd ← get;
  put (mkNode (parameters nd) (msg_types_dict nd) d (topic_name nd)
         (subscriptions nd) (data_to_write nd) (json_index_counter nd)
         (json_file nd) (writer nd) (logger nd)).

Definition set_topic_name (name : string) : M Node unit :=
  nd ← get;
  put (mkNode (parameters nd) (msg_types_dict nd) (sub_topic_names nd)
         (Some name) (subscriptions nd) (data_to_write nd)
         (json_index_counter nd) (json_file nd) (writer nd) (logger nd)).

Definition create_subscription (topic : string) : M Node unit :=
  nd ← get;
  put (mkNode (parameters nd) (msg_types_dict nd) (sub_topic_names nd)
         (topic_name nd) (subscriptions nd ++ [topic]) (data_to_write nd)
         (json_index_counter nd) (json_file nd) (writer nd) (logger nd)).

Definition set_data_to_write (d : list (string * PyValue)) : M Node unit :=
  nd ← get;
  put (mkNode (parameters nd) (msg_types_dict nd) (sub_topic_names nd)
         (topic_name nd) (subscriptions nd) (Some d) (json_index_counter nd)
         (json_file nd) (writer nd) (logger nd)).

Definition set_json_index_counter (n : Z) : M Node unit :=
  nd ← get;
  put (mkNode (parameters nd) (msg_types_dict nd) (sub_topic_names nd)
         (topic_name nd) (subscriptions nd) (data_to_write nd) (Some n)
         (json_file nd) (writer nd) (logger nd)).

Definition set_json_file (text : string) : M Node unit :=
  nd ← get;
  put (mkNode (parameters nd) (msg_types_dict nd) (sub_topic_names nd)
         (topic_name nd) (subscriptions nd) (data_to_write nd)
         (json_index_counter nd) (Some text) (writer nd) (logger nd)).

Definition set_writer (records : list (string * PyValue)) : M Node unit :=
  nd ← get;
  put (mkNode (parameters nd) (msg_types_dict nd) (sub_topic_names nd)
         (topic_name nd) (subscriptions nd) (data_to_write nd)
         (json_index_counter nd) (json_file nd) (Some records) (logger nd)).

Definition log (s : Severity) (t : LogText) : M Node unit :=
  nd ← get;
  put (mkNode (parameters nd) (msg_types_dict nd) (sub_topic_names nd)
         (topic_name nd) (subscriptions nd) (data_to_write nd)
         (json_index_counter nd) (json_file nd) (writer nd)
         (logger nd ++ [(s, t)])).

(** [self.__json_file.write(text)] *)
Definition json_file_write (text : string) : M Node unit :=
  written ← attribute json_file;
  set_json_file (written ++ text)%string.

(** The properties that read a parameter. *)
Definition sub_topics (nd : Node) : list string := topics (parameters nd).
Definition use_bag (nd : Node) : bool := bag (parameters nd).
Definition use_json (nd : Node) : bool := json (parameters nd).
Definition json_write_period (nd : Node) : Scalar :=
  write_period_sec (parameters nd).

(** ** Initialisation *)

Definition starts_with_underscore (name : string) : bool :=
  match name with
  | String c _ => Ascii.eqb c "_"
  | EmptyString => false
  end.

Definition init_subscriptions : M Node unit :=
  set_sub_topic_names [];;
  nd ← get;
  let topic_names := every_other (sub_topics nd) in
  let topic_types := every_other (tail (sub_topics nd)) in
  for_each (fun '(name, msg_type_name) =>
      set_topic_name name;;
      nd ← get;
      (if negb (contains msg_type_name (msg_types_dict nd))
       then log ERROR (msg_type_does_not_exist msg_type_name)
       else mret tt);;
      set_sub_topic_names (dict_set name msg_type_name (sub_topic_names nd));;
      (* self.__msg_types_dict[msg_type_name] *)
      (if contains msg_type_name (msg_types_dict nd)
       then create_subscription name
       else raise KeyError))
    (zip topic_names topic_types).

(** [exists]: whether a file of that name is there already. *)
Definition init_json_file (exists_already : bool) : M Node unit :=
  set_data_to_write [];;
  set_json_index_counter 0;;
  nd ← get;
  (if exists_already
   then log WARN (json_file_already_exists (file_name (parameters nd)))
   else mret tt);;
  set_json_file "";;
  json_file_write ("[" ++ newline)%string;;
  for_each (fun name =>
      d ← attribute data_to_write;
      set_data_to_write (dict_set name PyNone d))
    (dict_keys (sub_topic_names nd)).

Definition init_ros_bag : M Node unit := set_writer [].

(** [DataCollectionNode.__init__], given the parameters, the names of the
    classes of [custom_interfaces.msg], and whether the JSON file exists. *)
Definition init (params : Parameters) (msg_classes : list string)
    (exists_already : bool) : Outcome unit * Node :=
  (init_subscriptions;;
   nd ← get;
   (if use_json nd then init_json_file exists_already else mret tt);;
   (if use_bag nd then init_ros_bag else mret tt))
  (mkNode params
     (List.filter (fun name => negb (starts_with_underscore name)) msg_classes)
     [] None [] None None None None []).

(** ** The callbacks *)

Definition general_sub_callback (msg : PyValue) (name : string) : M Node unit :=
  nd ← get;
  (if use_json nd then
     d ← attribute data_to_write;
     set_data_to_write (dict_set name msg d)
   else mret tt);;
  (if use_bag nd then
     records ← attribute writer;
     set_writer (records ++ [(name, msg)])
   else mret tt).

Section WriteToJson.

(** [json.dumps(item, indent=4)] of the one-entry dictionary
    [{index: data}]. *)
Variable json_dumps : Z -> list (string * PyValue) -> string.

Definition write_to_json : M Node unit :=
  d ← attribute data_to_write;
  if all (dict_values d) then
    index ← attribute json_index_counter;
    nd ← get;
    let time_in_seconds := (inject_Z index * json_write_period nd)%Q in
    set_data_to_write (dict_set "time" (PyFloat time_in_seconds) d);;
    d' ← attribute data_to_write;
    let json_string := json_dumps index d' in
    let json_string :=
      if index >? 0 then ("," ++ newline ++ json_string)%string
      else json_string in
    json_file_write json_string;;
    index ← attribute json_index_counter;
    set_json_index_counter (index + 1)
  else mret tt.

(** ** The executor *)

Inductive Event : Type :=
| message (topic : string) (msg : PyValue)
| write_timer.

(** A message reaches every subscription of its topic; the callback of a
    subscription is [lambda msg: self.__general_sub_callback(msg,
    topic_name)], which reads [topic_name] when it runs. *)
Definition step (e : Event) : M Node unit :=
  match e with
  | message topic msg =>
      nd ← get;
      for_each (fun _ => name ← attribute topic_name;
                         general_sub_callback msg name)
        (List.filter (String.eqb topic) (subscriptions nd))
  | write_timer => write_to_json
  end.

Definition run (events : list Event) : M Node unit := for_each step events.

End WriteToJson.

(** ** The command line *)

(** [l.index(x)]: the position of the first [x]; [None] stands for the
    [ValueError] of a list without [x]. *)
Fixpoint index (x : string) (l : list string) : option nat :=
  match l with
  | [] => None
  | a :: l' => if String.eqb a x then Some 0%nat else S <$> index x l'
  end.

(** What a call of [is_collection_enabled] ends with: a value, or the
    [IndexError] that its [except ValueError] does not catch. *)
Inductive Enabled : Type :=
| returned (is_data_collection_enabled : bool)
| raised_IndexError.

(** [is_collection_enabled()], given
    [Constants.DATA_COLLECTION_CLI_ARG_NAME] (of
    [boat_simulator/common/constants.py], not among the sources) and
    [sys.argv]. *)
Definition is_collection_enabled
    (DATA_COLLECTION_CLI_ARG_NAME : string) (argv : list string) : Enabled :=
  match index DATA_COLLECTION_CLI_ARG_NAME argv with
  | Some i =>
      let is_data_collection_enabled_index := (i + 1)%nat in
      match argv !! is_data_collection_enabled_index with
      | Some value => returned (String.eqb value "true")
      | None => raised_IndexError
      end
  | None => returned false
  end.

(** ** Shutdown *)

(** The two storage files; [close()] is recorded by adding the file to a
    list of closed files. *)
Inductive StorageFile : Type := the_json_file | the_bag.

Definition lift {A : Type} (m : M Node A) : M (Node * list StorageFile) A :=
  fun s =>
    match m (fst s) with
    | (outcome, nd) => (outcome, (nd, snd s))
    end.

Definition close (f : StorageFile) : M (Node * list StorageFile) unit :=
  fun s => (Return tt, (fst s, snd s ++ [f])).

(** [__shutdown_callback] *)
Definition shutdown_callback : M (Node * list StorageFile) unit :=
  nd ← lift get;
  (if use_json nd then
     lift (json_file_write (newline ++ "]")%string);;
     close the_json_file
   else mret tt);;
  (if use_bag nd then
     lift (attribute writer);;
     close the_bag
   else mret tt).

(** ** Closed forms for the statements *)

(** The pairs [(name1, type1)], [(name2, type2)], ... of a list that
    alternates names and types. *)
Fixpoint pairs (l : list string) : list (string * string) :=
  match l with
  | name :: msg_type_name :: l' => (name, msg_type_name) :: pairs l'
  | _ => []
  end.

(** The pairs that [__init_subscriptions] loops over. *)
Definition topic_pairs (params : Parameters) : list (string * string) :=
  zip (every_other (topics params)) (every_other (tail (topics params))).

(** The classes that [__init_msg_types_dict] keeps. *)
Definition known_types (msg_classes : list string) : list string :=
  List.filter (fun name => negb (starts_with_underscore name)) msg_classes.

(** The node after subscriptions to the pairs [ps]. *)
Definition subscribed (ps : list (string * string)) (nd : Node) : Node :=
  mkNode (parameters nd) (msg_types_dict nd)
    (fold_left (fun d p => dict_set (fst p) (snd p) d) ps (sub_topic_names nd))
    (match last ps with
     | Some p => Some (fst p)
     | None => topic_name nd
     end)
    (subscriptions nd ++ map fst ps)
    (data_to_write nd) (json_index_counter nd) (json_file nd) (writer nd)
    (logger nd).

(** The names and types recorded for the pairs [ps]. *)
Definition recorded (ps : list (string * string)) : list (string * string) :=
  fold_left (fun d p => dict_set (fst p) (snd p) d) ps [].

(** Whether every type of the topics list is a class of
    [custom_interfaces.msg]. *)
Definition all_known (msg_classes : list string) (topics : list string) : bool :=
  forallb (fun p => contains (snd p) (known_types msg_classes)) (pairs topics).

(** Entries separated by a comma and a newline. *)
Fixpoint joined (entries : list string) : string :=
  match entries with
  | [] => ""
  | [entry] => entry
  | entry :: entries' => (entry ++ "," ++ newline ++ joined entries')%string
  end.

(** The dictionary holds a zero time stamp, and no callback of a
    subscription writes under the key ["time"]. *)
Definition blocked (nd : Node) : Prop :=
  exists d x,
    data_to_write nd = Some d /\
    dict_get "time" d = Some (PyFloat x) /\
    (x == 0)%Q /\
    topic_name nd <> Some "time".

(** ** Inputs of the examples *)

(** One topic, [/gps] of type [GPS], logged to JSON every half second. *)
Definition gps_parameters : Parameters :=
  mkParameters "data" 10 ["/gps"; "GPS"] false true (1 # 2).

Definition gps_message : PyValue :=
  PyDict
    [("lat_lon", PyDict [("latitude", PyFloat (493 # 10));
                         ("longitude", PyFloat (-1231 # 10))]);
     ("speed", PyDict [("speed", PyFloat 3)]);
     ("heading", PyDict [("heading", PyFloat 90)])].

(** Two topics, logged to JSON and to the bag. *)
Definition two_topics : Parameters :=
  mkParameters "data" 10 ["/gps"; "GPS"; "/wind_sensors"; "WindSensors"]
    true true (1 # 2).

(** The second type is misspelt. *)
Definition misspelt_type : Parameters :=
  mkParameters "data" 10 ["/gps"; "GPS"; "/wind_sensors"; "WindSensor"]
    true true (1 # 2).

(** One topic, logged to the bag only. *)
Definition bag_only : Parameters :=
  mkParameters "data" 10 ["/gps"; "GPS"] true false (1 # 2).

(** A stand-in for [json.dumps] that prints the index and no data. *)
Definition index_only (index : Z) (d : list (string * PyValue)) : string :=
  str index.

End DataCollection.

(** * Proofs *)

(** ** Lists *)

Lemma lookup_snoc {A : Type} (l : list A) (x : A) :
  (l ++ [x]) !! length l = Some x.
Proof. by rewrite list_lookup_middle. Qed.

Lemma alter_snoc {A : Type} (f : A -> A) (l : list A) (x : A) :
  alter f (length l) (l ++ [x]) = l ++ [f x].
Proof. induction l as [|a l IH]; simpl; [done | by f_equal]. Qed.

Lemma alter_lookup {A : Type} (f : A -> A) (l : list A) (i : nat) (x : A) :
  l !! i = Some x -> alter f i l = <[i := f x]> l.
Proof.
  revert i. induction l as [|a l IH]; intros [|i]; simpl; try done.
  - by intros [= ->].
  - intros H. f_equal. by apply IH.
Qed.

Lemma alter_insert {A : Type} (f : A -> A) (l : list A) (i : nat) (x : A) :
  alter f i (<[i := x]> l) = <[i := f x]> l.
Proof.
  revert i. induction l as [|a l IH]; intros [|i]; simpl; try done.
  f_equal. apply IH.
Qed.

Lemma insert_snoc {A : Type} (l : list A) (x y : A) :
  <[length l := y]> (l ++ [x]) = l ++ [y].
Proof. induction l as [|a l IH]; simpl; [done | by f_equal]. Qed.

(** ** Arithmetic of the time stamp *)

Lemma py_int_inject_Z (n : Z) : py_int (inject_Z n) = n.
Proof. unfold py_int, inject_Z; simpl. apply Z.quot_1_r. Qed.

Lemma py_int_nonneg (x : Q) : 0 <= Qnum x -> py_int x = Qfloor x.
Proof.
  destruct x as [a b]; unfold py_int, Qfloor; simpl; intros Ha.
  apply Z.quot_div_nonneg; lia.
Qed.

Lemma py_int_neg (x : Q) : Qnum x < 0 -> py_int x = Qceiling x.
Proof.
  destruct x as [a b]; unfold py_int, Qceiling, Qfloor; simpl; intros Ha.
  rewrite <- (Z.opp_involutive a) at 1.
  rewrite Z.quot_opp_l by lia. f_equal.
  apply Z.quot_div_nonneg; lia.
Qed.

Lemma Qnum_sign_comp (x y : Q) : (x == y)%Q -> 0 <= Qnum x -> 0 <= Qnum y.
Proof.
  destruct x as [a b], y as [c d]; unfold Qeq; simpl; intros E Ha. nia.
Qed.

(** [int] gives the same integer on equal rationals. *)
Lemma py_int_comp (x y : Q) : (x == y)%Q -> py_int x = py_int y.
Proof.
  intros E. destruct (Z_le_gt_dec 0 (Qnum x)) as [Hx | Hx].
  - rewrite !py_int_nonneg; eauto using Qnum_sign_comp. by rewrite E.
  - assert (Qnum y < 0).
    { destruct (Z_le_gt_dec 0 (Qnum y)) as [Hy | Hy]; [|lia].
      symmetry in E. pose proof (Qnum_sign_comp _ _ E Hy). lia. }
    rewrite !py_int_neg by lia. by rewrite E.
Qed.

(** [divmod(x, 1)] is the floor of [x] and its fractional part. *)
Lemma divmod_one (x : Q) :
  exists r, divmod x 1 = (inject_Z (Qfloor x), r) /\ (r == frac x)%Q.
Proof.
  unfold divmod, frac.
  assert (E : Qfloor (x / 1) = Qfloor x).
  { apply Qfloor_comp. unfold Qdiv.
    change (/ 1)%Q with 1%Q. apply Qmult_1_r. }
  rewrite E. eexists; split; [reflexivity|]. ring.
Qed.





(** ** The decimal string of an integer *)


(** ** The physics engine node *)

#[local] Arguments divmod : simpl never.
#[local] Arguments Qfloor : simpl never.
#[local] Arguments Qmult : simpl never.
#[local] Arguments Qminus : simpl never.
#[local] Arguments Qdiv : simpl never.
#[local] Arguments inject_Z : simpl never.
#[local] Arguments py_int : simpl never.
#[local] Arguments str : simpl never.
#[local] Arguments fmt_2f : simpl never.

Ltac unfold_monad := unfold mbind, mret, M_bind, M_ret.

Ltac unfold_client :=
  unfold new_Goal, set_desired_heading, wait_for_server, send_goal_async,
    get_result_async, add_done_callback, update_requests, get_requests,
    set_requests, get_node, update_node, get_pub_period, log.

Section PhysicsEngine.

Variable timeout_sec : Scalar.

(** *** What each callback does, in closed form *)

Lemma publish_cycle_done w :
  step timeout_sec publish_timer w = (Return tt, published w).
Proof.
  destruct w as [[c a s d] p up rs lg gp ws k].
  unfold step, publish, publish_gps, publish_wind_sensors, publish_kinematics,
    gps_pub_publish, wind_sensors_pub_publish, kinematics_pub_publish.
  unfold_client. unfold_monad. cbn.
  destruct (divmod_one (p * inject_Z c)) as (r & -> & Hr).
  unfold published, stamped_header. cbn.
  rewrite py_int_inject_Z.
  rewrite (py_int_comp (r * 1000000000) (frac (p * inject_Z c) * 1000000000))
    by (by rewrite Hr).
  rewrite <- !app_assoc. reflexivity.
Qed.

Lemma send_goal_ready w h :
  desired_heading (node w) = Some h -> server_ready w = true ->
  step timeout_sec rudder_timer w =
    (Return tt,
     with_requests
       (requests w ++ [sent (SimRudderActuation.mkGoal (Some h)) None None])
       [(DEBUG, initiating_goal_request); (DEBUG, completed_goal_request)] w).
Proof.
  destruct w as [[c a s d] p up rs lg g ws k]; simpl; intros -> ->.
  unfold rudder_action_send_goal, require_all_subs_active,
    rudder_action_send_goal_body, with_requests.
  unfold_client. unfold_monad. cbn.
  rewrite !alter_snoc, <- app_assoc. reflexivity.
Qed.

Lemma send_goal_timed_out w h :
  desired_heading (node w) = Some h -> server_ready w = false ->
  step timeout_sec rudder_timer w =
    (Return tt,
     with_requests
       (requests w ++
        [mkRequest (SimRudderActuation.mkGoal (Some h)) None None None])
       [(DEBUG, initiating_goal_request);
        (WARN, goal_request_timed_out timeout_sec)] w).
Proof.
  destruct w as [[c a s d] p up rs lg g ws k]; simpl; intros -> ->.
  unfold rudder_action_send_goal, require_all_subs_active,
    rudder_action_send_goal_body, with_requests.
  unfold_client. unfold_monad. cbn.
  rewrite !alter_snoc, <- app_assoc. reflexivity.
Qed.

Lemma send_goal_skipped w :
  desired_heading (node w) = None ->
  step timeout_sec rudder_timer w = (Return tt, w).
Proof.
  destruct w as [[c a s d] p up rs lg g ws k]; simpl; intros ->.
  reflexivity.
Qed.

Lemma desired_heading_stored w msg :
  step timeout_sec (desired_heading_received msg) w =
    (Return tt, heading_stored msg w).
Proof. reflexivity. Qed.

Lemma goal_response_accepted w i g :
  requests w !! i = Some (sent g None None) ->
  step timeout_sec (goal_response i (Some true)) w =
    (Return tt,
     with_requests
       (<[i := sent g (Some (Some (mkHandle i true)))
                 (Some (result_future None))]> (requests w))
       [(DEBUG, goal_accepted)] w).
Proof.
  destruct w as [nd p up rs lg gp ws k]; simpl; intros Hi.
  unfold deliver_goal_response, get_requests. unfold_monad. cbn.
  rewrite Hi. cbn.
  unfold rudder_action_goal_response_callback. unfold_client. unfold_monad.
  cbn. rewrite !alter_insert. reflexivity.
Qed.

Lemma goal_response_rejected w i g response :
  requests w !! i = Some (sent g None None) ->
  response = None \/ response = Some false ->
  step timeout_sec (goal_response i response) w =
    (Return tt,
     with_requests
       (<[i := sent g (Some (mkHandle i <$> response)) None]> (requests w))
       [(WARN, goal_rejected)] w).
Proof.
  destruct w as [nd p up rs lg gp ws k]; simpl; intros Hi Hresponse.
  unfold deliver_goal_response, get_requests. unfold_monad. cbn.
  rewrite Hi. cbn.
  destruct Hresponse as [-> | ->]; reflexivity.
Qed.

Lemma goal_response_ignored w i response :
  (forall r, requests w !! i = Some r -> request_state r <> Pending) ->
  step timeout_sec (goal_response i response) w = (Return tt, w).
Proof.
  destruct w as [nd p up rs lg gp ws k]; simpl; intros Hi.
  unfold deliver_goal_response, get_requests. unfold_monad. cbn.
  destruct (rs !! i) as [[g fb [[[x|] cbs]|] res]|] eqn:E; try reflexivity.
  by destruct (Hi _ eq_refl).
Qed.

Lemma result_delivered w i g response0 response :
  requests w !! i = Some (sent g response0 (Some (result_future None))) ->
  step timeout_sec (result i response) w =
    (Return tt,
     with_requests
       (<[i := sent g response0 (Some (result_future (Some response)))]>
          (requests w))
       [(DEBUG,
         action_finished
           (fmt_2f (SimRudderActuation.remaining_angular_distance response))
           (rudder_angle (node w)))] w).
Proof.
  destruct w as [nd p up rs lg gp ws k]; simpl; intros Hi.
  unfold deliver_result, get_requests. unfold_monad. cbn.
  rewrite Hi. reflexivity.
Qed.

Lemma result_ignored w i response :
  (forall r cbs, requests w !! i = Some r ->
     get_result_future r <> Some (mkFuture None cbs)) ->
  step timeout_sec (result i response) w = (Return tt, w).
Proof.
  destruct w as [nd p up rs lg gp ws k]; simpl; intros Hi.
  unfold deliver_result, get_requests. unfold_monad. cbn.
  destruct (rs !! i) as [[g fb sg [[[x|] cbs]|]]|] eqn:E; try reflexivity.
  by destruct (Hi _ cbs eq_refl).
Qed.

Lemma feedback_processed w i r feedback_msg :
  requests w !! i = Some r ->
  feedback_callback r = Some rudder_action_feedback_callback_ref ->
  executing r = true ->
  step timeout_sec (feedback i feedback_msg) w =
    (Return tt,
     with_rudder_angle (SimRudderActuation.rudder_angle feedback_msg)
       [(DEBUG,
         reported_rudder_angle
           (SimRudderActuation.rudder_angle feedback_msg))] w).
Proof.
  destruct w as [nd p up rs lg gp ws k]; simpl; intros Hi Hcb Hexec.
  unfold deliver_feedback, get_requests. unfold_monad. cbn.
  rewrite Hi, Hcb, Hexec. reflexivity.
Qed.

Lemma feedback_ignored w i feedback_msg :
  (forall r, requests w !! i = Some r ->
     feedback_callback r = None \/ executing r = false) ->
  step timeout_sec (feedback i feedback_msg) w = (Return tt, w).
Proof.
  destruct w as [nd p up rs lg gp ws k]; simpl; intros Hi.
  unfold deliver_feedback, get_requests. unfold_monad. cbn.
  destruct (rs !! i) as [r|] eqn:E; [|reflexivity].
  destruct (Hi _ eq_refl) as [-> | H]; [reflexivity|].
  rewrite H. by destruct (feedback_callback r).
Qed.

(** *** The executor follows [handles] *)

Lemma well_formed_state r :
  well_formed r ->
  match request_state r with
  | Accepted =>
      exists g i,
        r = sent g (Some (Some (mkHandle i true))) (Some (result_future None))
  | Pending => exists g, r = sent g None None
  | _ => True
  end.
Proof. destruct 1; simpl; eauto. Qed.

Lemma step_handles e w :
  sound w ->
  exists w', step timeout_sec e w = (Return tt, w') /\ handles timeout_sec w e w'.
Proof.
  intros Hw. destruct e as [| |msg|up|i response|i fb|i response].
  - eexists; split; [apply publish_cycle_done | constructor].
  - destruct (desired_heading (node w)) as [h|] eqn:Eh.
    + destruct (server_ready w) eqn:Eup.
      * eexists; split; [by apply send_goal_ready | by constructor].
      * eexists; split; [by apply send_goal_timed_out | by constructor].
    + eexists; split; [by apply send_goal_skipped | by constructor].
  - eexists; split; [apply desired_heading_stored | constructor].
  - eexists; split; [reflexivity | constructor].
  - destruct (requests w !! i) as [r|] eqn:Ei.
    + pose proof (well_formed_state r (Forall_lookup_1 _ _ _ _ Hw Ei)) as Hr.
      destruct (request_state r) eqn:Es;
        try (eexists; split;
             [apply goal_response_ignored | apply response_ignored];
             intros r' Hr'; rewrite Ei in Hr'; injection Hr' as <-;
             congruence).
      destruct Hr as [g ->].
      destruct response as [[|]|].
      * eexists; split; [by apply goal_response_accepted | by constructor].
      * eexists; split;
          [apply goal_response_rejected | apply response_rejected]; eauto.
      * eexists; split;
          [apply goal_response_rejected | apply response_rejected]; eauto.
    + eexists; split;
        [apply goal_response_ignored | apply response_ignored];
        intros r' Hr'; rewrite Ei in Hr'; discriminate.
  - destruct (requests w !! i) as [r|] eqn:Ei.
    + pose proof (Forall_lookup_1 _ _ _ _ Hw Ei) as Hwf.
      destruct (request_state r) eqn:Es;
        try (eexists; split;
             [apply feedback_ignored | apply feedback_dropped];
             intros r' Hr'; rewrite Ei in Hr'; injection Hr' as <-;
             [destruct Hwf; simpl in *; auto; discriminate | congruence]).
      pose proof (well_formed_state r Hwf) as Hr. rewrite Es in Hr.
      destruct Hr as (g & j & ->).
      eexists; split;
        [eapply feedback_processed | eapply feedback_taken]; eauto.
    + eexists; split;
        [apply feedback_ignored | apply feedback_dropped];
        intros r' Hr'; rewrite Ei in Hr'; discriminate.
  - destruct (requests w !! i) as [r|] eqn:Ei.
    + pose proof (Forall_lookup_1 _ _ _ _ Hw Ei) as Hwf.
      destruct (request_state r) eqn:Es;
        try (eexists; split;
             [apply result_ignored | apply result_dropped];
             [intros r' cbs Hr' | intros r' Hr'];
             rewrite Ei in Hr'; injection Hr' as <-;
             [destruct Hwf; simpl in *; discriminate | congruence]).
      pose proof (well_formed_state r Hwf) as Hr. rewrite Es in Hr.
      destruct Hr as (g & j & ->).
      eexists; split; [by apply result_delivered | by constructor].
    + eexists; split;
        [apply result_ignored | apply result_dropped];
        [intros r' cbs Hr' | intros r' Hr']; rewrite Ei in Hr'; discriminate.
Qed.

Lemma handles_sound w e w' :
  handles timeout_sec w e w' -> sound w -> sound w'.
Proof.
  unfold sound.
  destruct 1; simpl; intros Hw; try done;
    try (apply Forall_app; split; [done|]; repeat constructor);
    try (apply Forall_insert; [done|]).
  - constructor.
  - destruct H0 as [-> | ->]; constructor.
  - constructor.
Qed.

(** *** Runs *)

Lemma run_cons e events w w1 :
  step timeout_sec e w = (Return tt, w1) ->
  run timeout_sec (e :: events) w = run timeout_sec events w1.
Proof.
  intros H. unfold run; simpl. unfold_monad. fold (step timeout_sec e).
  by rewrite H.
Qed.

Lemma run_app events1 events2 w w1 :
  run timeout_sec events1 w = (Return tt, w1) ->
  run timeout_sec (events1 ++ events2) w = run timeout_sec events2 w1.
Proof.
  revert w. induction events1 as [|e events1 IH]; intros w; simpl.
  - by intros [= ->].
  - unfold run; simpl. unfold_monad. fold (step timeout_sec e).
    destruct (step timeout_sec e w) as [[[]|x] w2]; [apply IH | discriminate].
Qed.

(** From a sound world no callback raises, and the world stays sound. *)
Lemma run_sound events w :
  sound w ->
  exists w', run timeout_sec events w = (Return tt, w') /\ sound w'.
Proof.
  revert w. induction events as [|e events IH]; intros w Hw.
  - by exists w.
  - destruct (step_handles e w Hw) as (w1 & E & H).
    rewrite (run_cons _ _ _ _ E).
    apply IH. by apply (handles_sound w e).
Qed.

Lemma initial_world_sound period up : sound (initial_world period up).
Proof. constructor. Qed.

Lemma reached_sound events period up :
  sound (exec (run timeout_sec events) (initial_world period up)).
Proof.
  destruct (run_sound events _ (initial_world_sound period up)) as (w & E & H).
  unfold exec. by rewrite E.
Qed.

Lemma count_outstanding_snoc w rs lines r :
  count_outstanding (with_requests (rs ++ [r]) lines w) =
    (length (List.filter outstanding rs) + (if outstanding r then 1 else 0))%nat.
Proof.
  unfold count_outstanding; simpl.
  rewrite List.filter_app, length_app; simpl. by destruct (outstanding r).
Qed.

(** A tick of the timer with the heading known and the server there sends a
    goal, whatever the requests of the world are. *)
Lemma tick_sends w h :
  desired_heading (node w) = Some h -> server_ready w = true ->
  exists r,
    requests (exec (step timeout_sec rudder_timer) w) = requests w ++ [r] /\
    request_state r = Pending.
Proof.
  intros Hh Hup. unfold exec. rewrite (send_goal_ready w h Hh Hup).
  by eexists.
Qed.

(** *** What [handles] does to one request *)

Lemma lookup_insert_at {A : Type} (l : list A) (i j : nat) (x y z : A) :
  l !! i = Some x -> l !! j = Some y -> <[i := z]> l !! j = Some (if decide (i = j) then z else y).
Proof.
  intros Hi Hj. destruct (decide (i = j)) as [<- | Hne].
  - apply list_lookup_insert_eq. by eapply lookup_lt_Some.
  - by rewrite list_lookup_insert_ne.
Qed.

Lemma handles_request w e w' i r :
  handles timeout_sec w e w' ->
  requests w !! i = Some r ->
  exists r',
    requests w' !! i = Some r' /\
    (r' = r \/
     transition (request_state r) (request_state r') /\
     (request_state r = Pending /\ (exists response, e = goal_response i response) \/
      request_state r = Accepted /\ (exists response, e = result i response))).
Proof.
  destruct 1; simpl; intros Hi;
    try (by exists r; split; [|left]);
    try (by exists r; split; [apply lookup_app_l_Some | left]).
  - erewrite lookup_insert_at by done.
    eexists; split; [done|]. case_decide as Hd; [subst i0|by left].
    rewrite H in Hi. injection Hi as <-. right. split; [constructor|].
    left. eauto.
  - erewrite lookup_insert_at by done.
    eexists; split; [done|]. case_decide as Hd; [subst i0|by left].
    rewrite H in Hi. injection Hi as <-. right. split; [constructor|].
    left. eauto.
  - erewrite lookup_insert_at by done.
    eexists; split; [done|]. case_decide as Hd; [subst i0|by left].
    rewrite H in Hi. injection Hi as <-. right. split; [constructor|].
    right. eauto.
Qed.

Lemma handles_new_request w e w' i r' :
  handles timeout_sec w e w' ->
  requests w !! i = None ->
  requests w' !! i = Some r' ->
  e = rudder_timer /\ (request_state r' = Pending \/ request_state r' = TimedOut).
Proof.
  destruct 1; simpl; intros Hi Hi'; try congruence.
  - apply lookup_snoc_Some in Hi' as [[_ Hi'] | [_ <-]]; [congruence|].
    split; [done | by left].
  - apply lookup_snoc_Some in Hi' as [[_ Hi'] | [_ <-]]; [congruence|].
    split; [done | by right].
  - apply lookup_lt_Some in Hi'. rewrite length_insert in Hi'.
    apply lookup_ge_None in Hi. lia.
  - apply lookup_lt_Some in Hi'. rewrite length_insert in Hi'.
    apply lookup_ge_None in Hi. lia.
  - apply lookup_lt_Some in Hi'. rewrite length_insert in Hi'.
    apply lookup_ge_None in Hi. lia.
Qed.


(** A request in a terminal state is never touched again, and no event for
    it reaches a callback. *)
Lemma terminal_persists w e w' i r :
  handles timeout_sec w e w' ->
  requests w !! i = Some r ->
  terminal (request_state r) = true ->
  requests w' !! i = Some r.
Proof.
  intros H Hi Ht. destruct (handles_request w e w' i r H Hi) as (r' & Hi' & Hr).
  destruct Hr as [-> | [_ [[E _] | [E _]]]]; [done | |];
    rewrite E in Ht; discriminate.
Qed.

Lemma run_terminal_persists events w i r :
  sound w ->
  requests w !! i = Some r ->
  terminal (request_state r) = true ->
  requests (exec (run timeout_sec events) w) !! i = Some r /\
  sound (exec (run timeout_sec events) w).
Proof.
  revert w. induction events as [|e events IH]; intros w Hw Hi Ht; [done|].
  destruct (step_handles e w Hw) as (w1 & E & H).
  unfold exec. rewrite (run_cons _ _ _ _ E).
  apply IH; eauto using handles_sound, terminal_persists.
Qed.

Lemma terminal_request_is_deaf w i r :
  requests w !! i = Some r ->
  well_formed r ->
  terminal (request_state r) = true ->
  (forall feedback_msg,
     step timeout_sec (feedback i feedback_msg) w = (Return tt, w)) /\
  (forall response, step timeout_sec (result i response) w = (Return tt, w)).
Proof.
  intros Hi Hwf Ht. split.
  - intros fb. apply feedback_ignored. intros r' Hr'.
    rewrite Hi in Hr'. injection Hr' as <-.
    destruct Hwf; simpl in *; auto; discriminate.
  - intros response. apply result_ignored. intros r' cbs Hr'.
    rewrite Hi in Hr'. injection Hr' as <-.
    destruct Hwf; simpl in *; discriminate.
Qed.

(** *** Feedback for an accepted goal *)

Lemma after_feedback_frame w angles :
  requests (after_feedback w angles) = requests w /\
  rudder_angle (node (after_feedback w angles)) =
    default (rudder_angle (node w)) (last angles).
Proof.
  revert w. induction angles as [|a angles IH]; intros w; [done|].
  simpl. destruct (IH (with_rudder_angle a [(DEBUG, reported_rudder_angle a)] w))
    as [-> ->].
  split; [done|]. rewrite last_cons. by destruct (last angles).
Qed.

Lemma run_feedback angles w i g j :
  requests w !! i =
    Some (sent g (Some (Some (mkHandle j true))) (Some (result_future None))) ->
  run timeout_sec
    (map (fun angle => feedback i (SimRudderActuation.mkFeedback angle)) angles)
    w =
  (Return tt, after_feedback w angles).
Proof.
  revert w. induction angles as [|a angles IH]; intros w Hi; [done|].
  simpl map.
  rewrite (run_cons _ _ _ _
             (feedback_processed w i _ (SimRudderActuation.mkFeedback a) Hi
                eq_refl eq_refl)).
  by apply IH.
Qed.

(** *** Publish cycles *)


(** *** The claims on the physics engine node *)

(** C8: in every publish cycle, the GPS message that is published has
    latitude, longitude, speed and heading 0.0, and the wind sensors message
    has two readings, each of speed 0.0 and direction 0. *)
Theorem publish_cycle_publishes_zeros (w : World) :
  let w' := exec (step timeout_sec publish_timer) w in
  gps_pub w' =
    gps_pub w ++
    [GPS.mk (HelperLatLon.mk 0 0) (HelperSpeed.mk 0) (HelperHeading.mk 0)] /\
  wind_sensors_pub w' =
    wind_sensors_pub w ++
    [WindSensors.mk
       [WindSensor.mk (HelperSpeed.mk 0) 0; WindSensor.mk (HelperSpeed.mk 0) 0]].
Proof.
  unfold exec. rewrite publish_cycle_done. by split.
Qed.

(** C1, as amended: an invocation of the periodic submission entry point with
    the desired heading received and the server reachable sends a new goal
    whether or not earlier requests are still Pending or Accepted: the
    requests of the world are kept as they are, a Pending request is added,
    and the number of outstanding requests grows by one. *)
Theorem submission_adds_an_outstanding_request (w : World) (h : DesiredHeading.t) :
  desired_heading (node w) = Some h ->
  server_ready w = true ->
  let w' := exec (step timeout_sec rudder_timer) w in
  requests w' =
    requests w ++ [sent (SimRudderActuation.mkGoal (Some h)) None None] /\
  request_state (sent (SimRudderActuation.mkGoal (Some h)) None None) = Pending /\
  count_outstanding w' = S (count_outstanding w).
Proof.
  intros Hh Hup. unfold exec. rewrite (send_goal_ready w h Hh Hup).
  cbn [snd]. rewrite count_outstanding_snoc.
  split; [done|]. split; [done|]. unfold count_outstanding. simpl.
  apply Nat.add_1_r.
Qed.

(** C3: when the server does not answer within the timeout, the submission
    returns without an exception; the request it built is TimedOut and was
    never sent, and the requests already there are untouched; a warning is
    logged; nothing else in the world changes, and the next tick with the
    server back sends a goal. *)
Theorem unanswered_submission_times_out (w : World) (h : DesiredHeading.t) :
  desired_heading (node w) = Some h ->
  server_ready w = false ->
  let w' := exec (step timeout_sec rudder_timer) w in
  returns (step timeout_sec rudder_timer) w = true /\
  (exists r,
     requests w' = requests w ++ [r] /\
     request_state r = TimedOut /\ send_goal_future r = None) /\
  count_outstanding w' = count_outstanding w /\
  logger w' =
    logger w ++
    [(DEBUG, initiating_goal_request);
     (WARN, goal_request_timed_out timeout_sec)] /\
  node w' = node w /\
  pub_period w' = pub_period w /\
  server_ready w' = server_ready w /\
  gps_pub w' = gps_pub w /\
  wind_sensors_pub w' = wind_sensors_pub w /\
  kinematics_pub w' = kinematics_pub w /\
  (exists r,
     requests (exec (step timeout_sec rudder_timer) (server_set true w')) =
       requests w' ++ [r] /\
     request_state r = Pending).
Proof.
  intros Hh Hup. unfold exec, returns.
  rewrite (send_goal_timed_out w h Hh Hup). cbn [fst snd].
  rewrite count_outstanding_snoc.
  split_and!; try done.
  - by eexists.
  - apply (tick_sends (server_set true _) h); done.
Qed.

(** C4: when the goal response is a rejection, or carries no goal handle,
    the callback returns; the request ends Rejected, and no result is asked
    for it; a warning is logged and the fields of the node are untouched;
    whatever happens later, the request stays as it is and neither a
    feedback nor a result event for it reaches a callback; and the next tick
    with the heading known and the server reachable sends a new goal. *)
Theorem rejected_goal_is_dropped
    (events : list Event) (period : Scalar) (up : bool)
    (i : nat) (r : Request) (response : option bool) :
  let w := exec (run timeout_sec events) (initial_world period up) in
  requests w !! i = Some r ->
  request_state r = Pending ->
  response = None \/ response = Some false ->
  let w' := exec (step timeout_sec (goal_response i response)) w in
  returns (step timeout_sec (goal_response i response)) w = true /\
  logger w' = logger w ++ [(WARN, goal_rejected)] /\
  node w' = node w /\
  (exists r',
     requests w' !! i = Some r' /\
     request_state r' = Rejected /\
     get_result_future r' = None /\
     forall later,
       let w'' := exec (run timeout_sec later) w' in
       requests w'' !! i = Some r' /\
       (forall feedback_msg,
          step timeout_sec (feedback i feedback_msg) w'' = (Return tt, w'')) /\
       (forall result_msg,
          step timeout_sec (result i result_msg) w'' = (Return tt, w''))) /\
  (forall h,
     desired_heading (node w') = Some h -> server_ready w' = true ->
     exists r2,
       requests (exec (step timeout_sec rudder_timer) w') = requests w' ++ [r2] /\
       request_state r2 = Pending).
Proof.
  intros w Hi Hs Hresponse w'.
  pose proof (reached_sound events period up) as Hw. fold w in Hw.
  pose proof (well_formed_state r (Forall_lookup_1 _ _ _ _ Hw Hi)) as Hr.
  rewrite Hs in Hr. destruct Hr as [g ->].
  pose proof (goal_response_rejected w i g response Hi Hresponse) as E.
  assert (Hw' : sound w').
  { apply (handles_sound w (goal_response i response)); [|done].
    unfold w', exec. rewrite E. by constructor. }
  assert (Hi' : requests w' !! i =
                  Some (sent g (Some (mkHandle i <$> response)) None)).
  { unfold w', exec. rewrite E. simpl.
    apply list_lookup_insert_eq. by eapply lookup_lt_Some. }
  split_and!.
  - unfold returns. by rewrite E.
  - unfold w', exec. by rewrite E.
  - unfold w', exec. by rewrite E.
  - eexists; split_and!; [exact Hi' | done | done |].
    intros later w''.
    destruct (run_terminal_persists later w' i _ Hw' Hi' eq_refl) as [Hi'' Hw''].
    split; [done|].
    apply (terminal_request_is_deaf w'' i _ Hi''); [|done].
    by apply (Forall_lookup_1 _ _ _ _ Hw'' Hi'').
  - intros h Hh Hup. by apply (tick_sends _ h).
Qed.

(** C5: from one event to the next, a request keeps its state or takes one
    of the transitions Pending -> Accepted, Pending -> Rejected,
    Accepted -> Completed, the last one on its result event only; it stays
    Accepted on a feedback event; a request that is Rejected, Completed or
    TimedOut never changes; a new request comes from the submission entry
    point only and is Pending, or TimedOut when the wait for the server
    failed in that same call; and in every world a tick with the heading
    known and the server reachable starts a new submission. *)
Theorem request_states_follow_the_state_machine
    (events : list Event) (period : Scalar) (up : bool) (e : Event) :
  let w := exec (run timeout_sec events) (initial_world period up) in
  let w' := exec (step timeout_sec e) w in
  returns (step timeout_sec e) w = true /\
  (forall i r,
     requests w !! i = Some r ->
     exists r',
       requests w' !! i = Some r' /\
       (request_state r' = request_state r \/
        transition (request_state r) (request_state r')) /\
       (terminal (request_state r) = true -> r' = r) /\
       (request_state r = Accepted -> request_state r' = Completed ->
        exists response, e = result i response) /\
       (request_state r = Accepted -> (exists j m, e = feedback j m) ->
        request_state r' = Accepted)) /\
  (forall i r',
     requests w !! i = None -> requests w' !! i = Some r' ->
     e = rudder_timer /\
     (request_state r' = Pending \/ request_state r' = TimedOut)) /\
  (forall h,
     desired_heading (node w') = Some h -> server_ready w' = true ->
     exists r2,
       requests (exec (step timeout_sec rudder_timer) w') = requests w' ++ [r2] /\
       request_state r2 = Pending).
Proof.
  intros w w'.
  pose proof (reached_sound events period up) as Hw. fold w in Hw.
  destruct (step_handles e w Hw) as (w1 & E & H).
  assert (w' = w1) as -> by (unfold w', exec; by rewrite E).
  split_and!.
  - unfold returns. by rewrite E.
  - intros i r Hi.
    destruct (handles_request w e w1 i r H Hi) as (r' & Hi' & Hr).
    exists r'. split; [done|].
    destruct Hr as [-> | [Ht [[Es [x ->]] | [Es [x ->]]]]].
    + split_and!; eauto. intros Ha Hc. congruence.
    + split_and!; eauto.
      * rewrite Es. done.
      * congruence.
      * congruence.
    + split_and!; eauto.
      * rewrite Es. done.
      * intros _ (j & m & [=]).
  - intros i r'. apply handles_new_request. done.
  - intros h Hh Hup. by apply (tick_sends _ h).
Qed.

(** C6: a feedback event for an accepted request sets the rudder angle of
    the node to the angle of the event and logs it; the requests (hence
    their states), the desired heading, the publish counter, the sail trim
    tab angle and everything else in the world stay as they are. *)
Theorem feedback_updates_only_the_rudder_angle
    (events : list Event) (period : Scalar) (up : bool)
    (i : nat) (r : Request) (feedback_msg : SimRudderActuation.Feedback) :
  let w := exec (run timeout_sec events) (initial_world period up) in
  requests w !! i = Some r ->
  request_state r = Accepted ->
  let w' := exec (step timeout_sec (feedback i feedback_msg)) w in
  rudder_angle (node w') = SimRudderActuation.rudder_angle feedback_msg /\
  requests w' = requests w /\
  desired_heading (node w') = desired_heading (node w) /\
  publish_counter (node w') = publish_counter (node w) /\
  sail_trim_tab_angle (node w') = sail_trim_tab_angle (node w) /\
  pub_period w' = pub_period w /\
  server_ready w' = server_ready w /\
  gps_pub w' = gps_pub w /\
  wind_sensors_pub w' = wind_sensors_pub w /\
  kinematics_pub w' = kinematics_pub w /\
  logger w' =
    logger w ++
    [(DEBUG,
      reported_rudder_angle (SimRudderActuation.rudder_angle feedback_msg))].
Proof.
  intros w Hi Hs w'.
  pose proof (reached_sound events period up) as Hw. fold w in Hw.
  pose proof (well_formed_state r (Forall_lookup_1 _ _ _ _ Hw Hi)) as Hr.
  rewrite Hs in Hr. destruct Hr as (g & j & ->).
  unfold w', exec.
  rewrite (feedback_processed w i _ feedback_msg Hi eq_refl eq_refl).
  by split_and!.
Qed.

(** C7: in every world that the node reaches, a request has a result exactly
    when its state is Completed. *)
Theorem result_only_when_completed
    (events : list Event) (period : Scalar) (up : bool) (i : nat) (r : Request) :
  requests (exec (run timeout_sec events) (initial_world period up)) !! i = Some r ->
  (request_state r = Completed -> exists x, request_result r = Some x) /\
  (request_state r <> Completed -> request_result r = None).
Proof.
  intros Hi.
  pose proof (reached_sound events period up) as Hw.
  destruct (Forall_lookup_1 _ _ _ _ Hw Hi); simpl; split; eauto; try done.
Qed.

(** C2: submission, acceptance, any number of feedback events and the result:
    no callback raises; the request ends Completed, with the residual of the
    result event as its result; the rudder angle of the node is the angle of
    the last feedback event; and the last line of the log reports the
    residual, with two decimals, and that rudder angle. *)
Theorem accepted_goal_runs_to_completion
    (w : World) (h : DesiredHeading.t) (angles : list Scalar)
    (response : SimRudderActuation.Result) :
  desired_heading (node w) = Some h ->
  server_ready w = true ->
  let i := length (requests w) in
  let events := accepted_goal_events i angles response in
  let w' := exec (run timeout_sec events) w in
  returns (run timeout_sec events) w = true /\
  (exists r,
     requests w' !! i = Some r /\
     request_state r = Completed /\
     request_result r =
       Some (SimRudderActuation.remaining_angular_distance response)) /\
  rudder_angle (node w') = default (rudder_angle (node w)) (last angles) /\
  last (logger w') =
    Some (DEBUG,
          action_finished
            (fmt_2f (SimRudderActuation.remaining_angular_distance response))
            (rudder_angle (node w'))).
Proof.
  intros Hh Hup i events w'.
  set (g := SimRudderActuation.mkGoal (Some h)).
  set (w1 := with_requests (requests w ++ [sent g None None])
               [(DEBUG, initiating_goal_request);
                (DEBUG, completed_goal_request)] w).
  set (accepted := sent g (Some (Some (mkHandle i true)))
                     (Some (result_future None))).
  set (w2 := with_requests (requests w ++ [accepted]) [(DEBUG, goal_accepted)] w1).
  set (w3 := after_feedback w2 angles).
  destruct (after_feedback_frame w2 angles) as [Hrs Hangle]. fold w3 in Hrs, Hangle.
  assert (E2 : step timeout_sec (goal_response i (Some true)) w1 = (Return tt, w2)).
  { rewrite (goal_response_accepted w1 i g) by apply lookup_snoc.
    unfold w2, i. simpl. by rewrite insert_snoc. }
  assert (Hi3 : requests w3 !! i = Some accepted).
  { rewrite Hrs. apply lookup_snoc. }
  assert (E : run timeout_sec events w =
              (Return tt,
               with_requests
                 (<[i := sent g (Some (Some (mkHandle i true)))
                           (Some (result_future (Some response)))]> (requests w3))
                 [(DEBUG,
                   action_finished
                     (fmt_2f (SimRudderActuation.remaining_angular_distance response))
                     (rudder_angle (node w3)))] w3)).
  { unfold events, accepted_goal_events.
    cbn [app].
    rewrite (run_cons _ _ _ _ (send_goal_ready w h Hh Hup)). fold g w1.
    rewrite (run_cons _ _ _ _ E2).
    rewrite (run_app _ _ _ _ (run_feedback angles w2 i g i (lookup_snoc _ _))).
    fold w3.
    rewrite (run_cons _ _ _ _ (result_delivered w3 i g _ response Hi3)).
    reflexivity. }
  unfold w', exec, returns. rewrite E. cbn [fst snd].
  split_and!.
  - done.
  - eexists. split.
    { simpl. apply list_lookup_insert_eq. by eapply lookup_lt_Some. }
    split; reflexivity.
  - done.
  - simpl. apply last_snoc.
Qed.


End PhysicsEngine.

(** *** Instances of the claims *)

Example fmt_2f_residual : fmt_2f (2 # 100) = "0.02".
Proof. reflexivity. Qed.

Example fmt_2f_rounds_to_even : fmt_2f (1 # 8) = "0.12" /\ fmt_2f (3 # 8) = "0.38".
Proof. split; reflexivity. Qed.

Example fmt_2f_negative : fmt_2f (-1234567 # 1000) = "-1234.57".
Proof. reflexivity. Qed.

Example str_of_counter : str 0 = "0" /\ str 12 = "12".
Proof. split; reflexivity. Qed.

(** Cycle 7 at a period of 0.3 s: 2.1 s. *)
Example stamped_header_cycle_7 :
  stamped_header (3 # 10) 7 = Header.mk (Time.mk 2 100000000) "7".
Proof. reflexivity. Qed.

(** C1, as stated, fails: the submission entry point is called while the
    request of [one_goal_pending] is Pending; the call is not a no-op, and
    two requests are outstanding after it. *)
Lemma second_submission_is_not_a_no_op :
  let w := one_goal_pending in
  let w' := exec (step 2 rudder_timer) w in
  (exists r, requests w !! 0%nat = Some r /\ request_state r = Pending) /\
  count_outstanding w = 1%nat /\
  w' <> w /\
  count_outstanding w' = 2%nat.
Proof.
  split_and!.
  - by eexists.
  - reflexivity.
  - intros H. apply (f_equal count_outstanding) in H. discriminate H.
  - reflexivity.
Qed.

Lemma submission_adds_an_outstanding_request_witness :
  desired_heading (node one_goal_pending) = Some (heading_of (1 # 2)) /\
  server_ready one_goal_pending = true /\
  count_outstanding one_goal_pending = 1%nat /\
  count_outstanding (exec (step 2 rudder_timer) one_goal_pending) = 2%nat.
Proof.
  split; [reflexivity|]. split; [reflexivity|]. split; [reflexivity|].
  apply (submission_adds_an_outstanding_request 2 one_goal_pending
           (heading_of (1 # 2)) eq_refl eq_refl).
Defined.

(** The scenario of the specification: heading 0.5, feedback 0.1 and 0.3,
    residual 0.02. *)
Lemma accepted_goal_runs_to_completion_witness :
  let events :=
    accepted_goal_events 0 [1 # 10; 3 # 10] (SimRudderActuation.mkResult (2 # 100)) in
  let w' := exec (run 2 events) heading_known in
  desired_heading (node heading_known) = Some (heading_of (1 # 2)) /\
  server_ready heading_known = true /\
  returns (run 2 events) heading_known = true /\
  (exists r,
     requests w' !! 0%nat = Some r /\
     request_state r = Completed /\ request_result r = Some (2 # 100)%Q) /\
  rudder_angle (node w') = (3 # 10)%Q /\
  last (logger w') = Some (DEBUG, action_finished "0.02" (3 # 10)).
Proof.
  intros events w'.
  split; [reflexivity|]. split; [reflexivity|].
  pose proof (accepted_goal_runs_to_completion 2 heading_known
                (heading_of (1 # 2)) [1 # 10; 3 # 10]%Q
                (SimRudderActuation.mkResult (2 # 100)) eq_refl eq_refl)
    as (H1 & H2 & H3 & H4).
  split; [exact H1|]. split; [exact H2|]. split; [exact H3 | exact H4].
Defined.

(** The scenario of the specification: heading 1.0, server unreachable. *)
Lemma unanswered_submission_times_out_witness :
  let w :=
    exec (run 2 [desired_heading_received (heading_of 1)]) (initial_world 1 false) in
  let w' := exec (step 2 rudder_timer) w in
  desired_heading (node w) = Some (heading_of 1) /\
  server_ready w = false /\
  returns (step 2 rudder_timer) w = true /\
  (exists r,
     requests w' = requests w ++ [r] /\
     request_state r = TimedOut /\ send_goal_future r = None) /\
  count_outstanding w' = 0%nat /\
  last (logger w') = Some (WARN, goal_request_timed_out 2).
Proof.
  split; [reflexivity|]. split; [reflexivity|].
  pose proof (unanswered_submission_times_out 2
                (exec (run 2 [desired_heading_received (heading_of 1)])
                   (initial_world 1 false))
                (heading_of 1) eq_refl eq_refl)
    as (H1 & H2 & H3 & H4 & _).
  split; [exact H1|]. split; [exact H2|]. split; [exact H3|].
  reflexivity.
Defined.

(** The scenario of the specification: heading -0.2, rejected. *)
Lemma rejected_goal_is_dropped_witness :
  let events := [desired_heading_received (heading_of (-2 # 10)); rudder_timer] in
  let w := exec (run 2 events) (initial_world 1 true) in
  let w' := exec (step 2 (goal_response 0 (Some false))) w in
  requests w !! 0%nat =
    Some (sent (SimRudderActuation.mkGoal (Some (heading_of (-2 # 10)))) None None) /\
  (exists r',
     requests w' !! 0%nat = Some r' /\
     request_state r' = Rejected /\ get_result_future r' = None) /\
  last (logger w') = Some (WARN, goal_rejected) /\
  (exists r2,
     requests (exec (step 2 rudder_timer) w') = requests w' ++ [r2] /\
     request_state r2 = Pending).
Proof.
  intros events w w'.
  set (r := sent (SimRudderActuation.mkGoal (Some (heading_of (-2 # 10)))) None None).
  assert (Hi : requests w !! 0%nat = Some r) by reflexivity.
  split; [exact Hi|].
  pose proof (rejected_goal_is_dropped 2 events 1 true 0%nat r (Some false)
                Hi eq_refl (or_intror eq_refl))
    as (_ & _ & _ & (r' & H1 & H2 & H3 & _) & H4).
  split; [exists r'; split; [exact H1 | split; [exact H2 | exact H3]]|].
  split; [reflexivity|].
  apply (H4 (heading_of (-2 # 10))); reflexivity.
Defined.

Lemma feedback_updates_only_the_rudder_angle_witness :
  let w := exec (run 2 one_goal_accepted) (initial_world 1 true) in
  let w' := exec (step 2 (feedback 0 (SimRudderActuation.mkFeedback (1 # 10)))) w in
  (exists r, requests w !! 0%nat = Some r /\ request_state r = Accepted) /\
  rudder_angle (node w) = 0%Q /\
  rudder_angle (node w') = (1 # 10)%Q /\
  requests w' = requests w /\
  desired_heading (node w') = desired_heading (node w).
Proof.
  intros w w'.
  set (r := sent (SimRudderActuation.mkGoal (Some (heading_of (1 # 2))))
              (Some (Some (mkHandle 0 true))) (Some (result_future None))).
  assert (Hi : requests w !! 0%nat = Some r) by reflexivity.
  assert (Hs : request_state r = Accepted) by reflexivity.
  split; [exists r; split; [exact Hi | exact Hs]|].
  split; [reflexivity|].
  pose proof (feedback_updates_only_the_rudder_angle 2 one_goal_accepted 1 true
                0%nat r (SimRudderActuation.mkFeedback (1 # 10)) Hi Hs)
    as (H1 & H2 & H3 & _).
  split; [exact H1|]. split; [exact H2 | exact H3].
Defined.

Lemma result_only_when_completed_witness :
  let events := one_goal_accepted ++ [result 0 (SimRudderActuation.mkResult (2 # 100))] in
  let w := exec (run 2 events) (initial_world 1 true) in
  exists r,
    requests w !! 0%nat = Some r /\
    request_state r = Completed /\
    request_result r = Some (2 # 100)%Q /\
    ((request_state r = Completed -> exists x, request_result r = Some x) /\
     (request_state r <> Completed -> request_result r = None)).
Proof.
  intros events w.
  set (r := sent (SimRudderActuation.mkGoal (Some (heading_of (1 # 2))))
              (Some (Some (mkHandle 0 true)))
              (Some (result_future (Some (SimRudderActuation.mkResult (2 # 100)))))).
  assert (Hi : requests w !! 0%nat = Some r) by reflexivity.
  exists r. split; [exact Hi|]. split; [reflexivity|]. split; [reflexivity|].
  exact (result_only_when_completed 2 events 1 true 0%nat r Hi).
Defined.

(** ** More on the physics engine node *)

Section PhysicsEngineRuns.

Variable timeout_sec : Scalar.

(** Induction on the events of a run from a sound world, one [handles] step
    at a time. *)
Lemma run_handles_ind (P : list Event -> World -> Prop) w0 :
  sound w0 ->
  P [] w0 ->
  (forall events w e w',
     sound w -> handles timeout_sec w e w' -> P events w -> P (events ++ [e]) w') ->
  forall events, P events (exec (run timeout_sec events) w0).
Proof.
  intros Hw0 H0 Hstep events.
  cut (P events (exec (run timeout_sec events) w0) /\
       sound (exec (run timeout_sec events) w0)); [by intros [? _]|].
  induction events as [|e events [IHP IHs]] using rev_ind; [done|].
  destruct (run_sound timeout_sec events w0 Hw0) as (w1 & E1 & Hw1).
  unfold exec in IHP, IHs. rewrite E1 in IHP, IHs. simpl in IHP, IHs.
  destruct (step_handles timeout_sec e w1 Hw1) as (w2 & E2 & H).
  unfold exec. rewrite (run_app _ _ _ _ _ E1), (run_cons _ _ _ _ _ E2). simpl.
  split; [by eapply Hstep | by eapply handles_sound].
Qed.

(** *** No callback raises *)

(** X1: whatever events reach the node after [__init__], in whatever order
    (responses for goals that were never sent, second responses, feedback
    for finished goals), no callback raises: the result callback only ever
    runs on a future that is done. *)
Theorem callbacks_never_raise (events : list Event) (period : Scalar) (up : bool) :
  returns (run timeout_sec events) (initial_world period up) = true.
Proof.
  destruct (run_sound timeout_sec events _ (initial_world_sound period up))
    as (w & E & _).
  unfold returns. by rewrite E.
Qed.

(** *** Where the values of the node come from *)

Lemma headings_received_snoc events e :
  headings_received (events ++ [e]) =
    headings_received events ++
    (if e is desired_heading_received msg then [msg] else []).
Proof. unfold headings_received. rewrite omap_app. by destruct e. Qed.

Lemma angles_reported_snoc events e :
  angles_reported (events ++ [e]) =
    angles_reported events ++
    (if e is feedback _ m then [SimRudderActuation.rudder_angle m] else []).
Proof. unfold angles_reported. rewrite omap_app. by destruct e. Qed.

(** X2: the desired heading of the node is the last one received, and there
    is none as long as none was received. *)
Theorem node_keeps_the_latest_heading
    (events : list Event) (period : Scalar) (up : bool) :
  desired_heading (node (exec (run timeout_sec events) (initial_world period up))) =
    last (headings_received events).
Proof.
  apply (run_handles_ind
           (fun events w => desired_heading (node w) = last (headings_received events)));
    [apply initial_world_sound | done |].
  clear events. intros events w e w' _ H IH.
  rewrite headings_received_snoc.
  destruct H; simpl; rewrite ?app_nil_r; try done.
  by rewrite last_snoc.
Qed.


(** X4: the sail trim tab angle stays 0, and the rudder angle is 0 or an
    angle that a feedback event has reported. *)
Theorem angles_come_from_feedback
    (events : list Event) (period : Scalar) (up : bool) :
  let w := exec (run timeout_sec events) (initial_world period up) in
  sail_trim_tab_angle (node w) = 0%Q /\
  (rudder_angle (node w) = 0%Q \/ rudder_angle (node w) ∈ angles_reported events).
Proof.
  apply (run_handles_ind
           (fun events w =>
              sail_trim_tab_angle (node w) = 0%Q /\
              (rudder_angle (node w) = 0%Q \/
               rudder_angle (node w) ∈ angles_reported events)));
    [apply initial_world_sound | by split; [|left] |].
  clear events. intros events w e w' _ H [IHs IHr].
  rewrite angles_reported_snoc.
  assert (Hold : rudder_angle (node w) = 0%Q \/
                 rudder_angle (node w) ∈
                   angles_reported events ++
                   (if e is feedback _ m then [SimRudderActuation.rudder_angle m]
                    else [])).
  { destruct IHr as [? | ?]; [by left | right; apply elem_of_app; by left]. }
  destruct H; simpl; split; try done.
  right. apply elem_of_app. right. by apply list_elem_of_singleton.
Qed.

(** *** What has been published *)

Lemma publish_cycles_snoc events e :
  publish_cycles (events ++ [e]) =
    (publish_cycles events + (if e is publish_timer then 1 else 0))%nat.
Proof.
  unfold publish_cycles. rewrite List.filter_app, length_app.
  by destruct e.
Qed.

(** X5: after [n] publish cycles, [n] GPS messages and [n] wind sensors
    messages have been published, all with the zero values; no other event
    publishes. *)
Theorem publishers_keep_step_with_the_cycles
    (events : list Event) (period : Scalar) (up : bool) :
  let w := exec (run timeout_sec events) (initial_world period up) in
  gps_pub w = replicate (publish_cycles events) gps_zero /\
  wind_sensors_pub w = replicate (publish_cycles events) wind_sensors_zero.
Proof.
  apply (run_handles_ind
           (fun events w =>
              gps_pub w = replicate (publish_cycles events) gps_zero /\
              wind_sensors_pub w =
                replicate (publish_cycles events) wind_sensors_zero));
    [apply initial_world_sound | done |].
  clear events. intros events w e w' _ H [IHg IHw].
  rewrite publish_cycles_snoc.
  destruct H; simpl; rewrite ?Nat.add_0_r; try done.
  rewrite Nat.add_1_r, IHg, IHw. simpl.
  by rewrite !replicate_cons_app.
Qed.



(** *** The log and the requests *)

Lemma count_state_app s rs1 rs2 :
  count_state s (rs1 ++ rs2) = (count_state s rs1 + count_state s rs2)%nat.
Proof. unfold count_state. by rewrite List.filter_app, length_app. Qed.

Lemma count_lines_app kind lines1 lines2 :
  count_lines kind (lines1 ++ lines2) =
    (count_lines kind lines1 + count_lines kind lines2)%nat.
Proof. unfold count_lines. by rewrite List.filter_app, length_app. Qed.

Lemma count_state_insert s rs i r r' :
  rs !! i = Some r ->
  (count_state s (<[i := r']> rs) +
   (if state_eqb (request_state r) s then 1 else 0))%nat =
  (count_state s rs + (if state_eqb (request_state r') s then 1 else 0))%nat.
Proof.
  unfold count_state. revert i.
  induction rs as [|a rs IH]; intros [|i]; simpl; try done.
  - intros [= ->].
    destruct (state_eqb (request_state r) s), (state_eqb (request_state r') s);
      simpl; lia.
  - intros Hi. specialize (IH i Hi).
    destruct (state_eqb (request_state a) s); simpl; lia.
Qed.

(** X8: in every world that the node reaches, the log has one warning
    "rejected" for each Rejected request, one warning "timed out" for each
    TimedOut request, and one line "finished" for each Completed request. *)
Theorem terminal_states_are_logged_once
    (events : list Event) (period : Scalar) (up : bool) :
  let w := exec (run timeout_sec events) (initial_world period up) in
  count_lines is_rejected_line (logger w) = count_state Rejected (requests w) /\
  count_lines is_timed_out_line (logger w) = count_state TimedOut (requests w) /\
  count_lines is_finished_line (logger w) = count_state Completed (requests w).
Proof.
  apply (run_handles_ind
           (fun _ w =>
              count_lines is_rejected_line (logger w) =
                count_state Rejected (requests w) /\
              count_lines is_timed_out_line (logger w) =
                count_state TimedOut (requests w) /\
              count_lines is_finished_line (logger w) =
                count_state Completed (requests w)));
    [apply initial_world_sound | done |].
  clear events. intros _ w e w' _ H (IH1 & IH2 & IH3).
  destruct H; simpl; rewrite ?count_lines_app, ?count_state_app, ?IH1, ?IH2, ?IH3;
    try (split_and!; cbn; lia).
  - pose proof (count_state_insert Rejected _ _ _
                  (sent g (Some (Some (mkHandle i true))) (Some (result_future None)))
                  H) as H1.
    pose proof (count_state_insert TimedOut _ _ _
                  (sent g (Some (Some (mkHandle i true))) (Some (result_future None)))
                  H) as H2.
    pose proof (count_state_insert Completed _ _ _
                  (sent g (Some (Some (mkHandle i true))) (Some (result_future None)))
                  H) as H3.
    cbn in H1, H2, H3. split_and!; cbn; lia.
  - pose proof (count_state_insert Rejected _ _ _
                  (sent g (Some (mkHandle i <$> response)) None) H) as H1.
    pose proof (count_state_insert TimedOut _ _ _
                  (sent g (Some (mkHandle i <$> response)) None) H) as H2.
    pose proof (count_state_insert Completed _ _ _
                  (sent g (Some (mkHandle i <$> response)) None) H) as H3.
    cbn in H1, H2, H3. split_and!; cbn; lia.
  - pose proof (count_state_insert Rejected _ _ _
                  (sent g (Some (Some (mkHandle j true)))
                     (Some (result_future (Some response)))) H) as H1.
    pose proof (count_state_insert TimedOut _ _ _
                  (sent g (Some (Some (mkHandle j true)))
                     (Some (result_future (Some response)))) H) as H2.
    pose proof (count_state_insert Completed _ _ _
                  (sent g (Some (Some (mkHandle j true)))
                     (Some (result_future (Some response)))) H) as H3.
    cbn in H1, H2, H3. split_and!; cbn; lia.
Qed.

End PhysicsEngineRuns.

(** *** Instances of the properties of runs *)




(** ** The data collection node *)

Module DataCollectionProofs.

Import DataCollection.

Lemma dict_get_set_eq {V : Type} (key : string) (value : V) d :
  dict_get key (dict_set key value d) = Some value.
Proof.
  induction d as [|[k v] d IH]; simpl.
  - by rewrite String.eqb_refl.
  - destruct (String.eqb k key) eqn:E; simpl; by rewrite E.
Qed.

Lemma dict_get_set_ne {V : Type} (key key' : string) (value : V) d :
  key <> key' -> dict_get key' (dict_set key value d) = dict_get key' d.
Proof.
  intros Hne. induction d as [|[k v] d IH]; simpl.
  - destruct (String.eqb_spec key key'); [done | done].
  - destruct (String.eqb_spec k key) as [-> | Hk]; simpl.
    + destruct (String.eqb_spec key key'); done.
    + destruct (String.eqb_spec k key'); done.
Qed.

(** One value that is not truthy makes [all] false. *)
Lemma all_false key d v :
  dict_get key d = Some v -> truthy v = false -> all (dict_values d) = false.
Proof.
  unfold all, dict_values. induction d as [|[k x] d IH]; simpl; [done|].
  destruct (String.eqb k key).
  - intros [= ->] ->. done.
  - intros Hg Hv. rewrite (IH Hg Hv). apply andb_false_r.
Qed.

Section WriteToJson.

Variable json_dumps : Z -> list (string * PyValue) -> string.

(** With a value for every key, the timer writes the entry of the current
    index, after a comma when the index is positive, and moves on to the
    next index. *)
Lemma write_to_json_writes nd d index text :
  data_to_write nd = Some d ->
  json_index_counter nd = Some index ->
  json_file nd = Some text ->
  all (dict_values d) = true ->
  let time_in_seconds := (inject_Z index * json_write_period nd)%Q in
  let d' := dict_set "time" (PyFloat time_in_seconds) d in
  let nd' := exec (write_to_json json_dumps) nd in
  returns (write_to_json json_dumps) nd = true /\
  data_to_write nd' = Some d' /\
  json_index_counter nd' = Some (index + 1) /\
  json_file nd' =
    Some (text ++ (if index >? 0 then "," ++ newline ++ json_dumps index d'
                   else json_dumps index d'))%string.
Proof.
  destruct nd as [params types names var subs data counter file bag lg].
  simpl. intros -> -> -> Hall.
  unfold exec, returns, write_to_json, attribute, set_data_to_write,
    set_json_index_counter, json_file_write, set_json_file, get, put.
  unfold_monad. cbn. rewrite Hall. cbn.
  by split_and!.
Qed.

(** With a value that is not truthy, the timer does nothing. *)
Lemma write_to_json_skips nd d key v :
  data_to_write nd = Some d ->
  dict_get key d = Some v ->
  truthy v = false ->
  write_to_json json_dumps nd = (Return tt, nd).
Proof.
  destruct nd as [params types names var subs data counter file bag lg].
  simpl. intros -> Hg Hv.
  unfold write_to_json, attribute, get. unfold_monad. cbn.
  by rewrite (all_false key d v Hg Hv).
Qed.

(** The first entry blocks every later one: its time stamp is
    [0 * period = 0.0], it stays in [data_to_write] under the key ["time"],
    and [all] tests it with the messages. *)
Lemma first_entry_blocks_the_timer nd d text :
  data_to_write nd = Some d ->
  json_index_counter nd = Some 0 ->
  json_file nd = Some text ->
  all (dict_values d) = true ->
  let nd' := exec (write_to_json json_dumps) nd in
  write_to_json json_dumps nd' = (Return tt, nd').
Proof.
  intros Hd Hc Hf Hall nd'.
  destruct (write_to_json_writes nd d 0 text Hd Hc Hf Hall) as (_ & Hd' & _).
  apply (write_to_json_skips nd' _ "time" _ Hd' (dict_get_set_eq _ _ _)).
  unfold truthy. rewrite Qeq_eq_bool; [done|]. apply Qmult_0_l.
Qed.

(** A property that every call of [f] keeps is kept by the loop, also when
    a call raises. *)
Lemma for_each_keeps {S A : Type} (P : S -> Prop) (f : A -> M S unit) l s :
  (forall a s, P s -> P (exec (f a) s)) -> P s -> P (exec (for_each f l) s).
Proof.
  intros Hf. revert s. induction l as [|a l IH]; intros s Hs; [done|].
  unfold exec; simpl. unfold_monad.
  pose proof (Hf a s Hs) as Ha. unfold exec in Ha.
  destruct (f a s) as [[[]|e] s1]; simpl in *; [by apply IH | done].
Qed.

Lemma step_blocked e nd :
  blocked nd ->
  let nd' := exec (step json_dumps e) nd in
  blocked nd' /\
  json_file nd' = json_file nd /\
  json_index_counter nd' = json_index_counter nd.
Proof.
  intros Hb. destruct e as [topic msg|]; simpl.
  - set (P := fun nd' : Node =>
               blocked nd' /\ json_file nd' = json_file nd /\
               json_index_counter nd' = json_index_counter nd).
    unfold exec. unfold_monad. unfold get. simpl.
    apply (for_each_keeps P); [|by unfold P].
    clear Hb. intros _ [params types names var subs data counter file bag lg].
    intros ((d & x & Hd & Hg & Hx & Hv) & Hf & Hc). simpl in *. subst data.
    unfold P, exec, general_sub_callback, attribute, set_data_to_write,
      set_writer, use_json, use_bag, get, put.
    unfold_monad. cbn.
    destruct var as [name|]; cbn.
    2:{ split; [|done]. by exists d, x. }
    assert (name <> "time") as Hne by congruence.
    assert (Hg' : dict_get "time" (dict_set name msg d) = Some (PyFloat x))
      by (by rewrite dict_get_set_ne).
    destruct (json params), (DataCollection.bag params), bag as [records|];
      cbn; (split; [|done]); eexists _, x; cbn; eauto.
  - destruct Hb as (d & x & Hd & Hg & Hx & Hv).
    unfold exec.
    rewrite (write_to_json_skips nd d "time" (PyFloat x) Hd Hg).
    + split; [by exists d, x | done].
    + simpl. by rewrite (Qeq_eq_bool _ _ Hx).
Qed.

(** Once the entry of index 0 is in the file, no event adds another one,
    as long as no subscription writes under the key ["time"]. *)
Lemma one_entry_at_most nd d text events :
  data_to_write nd = Some d ->
  json_index_counter nd = Some 0 ->
  json_file nd = Some text ->
  all (dict_values d) = true ->
  topic_name nd <> Some "time" ->
  let nd1 := exec (write_to_json json_dumps) nd in
  let nd2 := exec (run json_dumps events) nd1 in
  json_index_counter nd2 = Some 1 /\ json_file nd2 = json_file nd1.
Proof.
  intros Hd Hc Hf Hall Hv nd1 nd2.
  destruct (write_to_json_writes nd d 0 text Hd Hc Hf Hall)
    as (_ & Hd1 & Hc1 & _). fold nd1 in Hd1, Hc1.
  assert (Hb : blocked nd1).
  { eexists _, _. split; [exact Hd1|]. split; [apply dict_get_set_eq|].
    split; [apply Qmult_0_l|].
    replace (topic_name nd1) with (topic_name nd); [done|].
    clear -Hd Hc Hf Hall. subst nd1.
    destruct nd as [params types names var subs data counter file bag lg].
    simpl in *. subst.
    unfold exec, write_to_json, attribute, set_data_to_write,
      set_json_index_counter, json_file_write, set_json_file, get, put.
    unfold_monad. cbn. by rewrite Hall. }
  set (P := fun nd' : Node =>
              blocked nd' /\ json_file nd' = json_file nd1 /\
              json_index_counter nd' = json_index_counter nd1).
  assert (HP : P nd2).
  { apply (for_each_keeps P); [|by unfold P].
    intros e s (Hs & Hfs & Hcs).
    destruct (step_blocked e s Hs) as (H1 & H2 & H3).
    split; [done|]. split; congruence. }
  destruct HP as (_ & H2 & H3). split; [by rewrite H3, Hc1 | done].
Qed.

(** C10, on the input [gps_parameters], one message on [/gps], and two
    firings of the timer with a second message between them.  The first
    firing writes the entry of index 0, with time 0 and without a comma.
    At the second firing the one subscribed topic has a truthy message, and
    nothing is written: the file and the index stay as they are. *)
Theorem second_json_entry_is_never_written :
  let nd0 := snd (init gps_parameters ["GPS"] false) in
  let nd1 := exec (run json_dumps [message "/gps" gps_message; write_timer]) nd0 in
  let nd2 := exec (step json_dumps (message "/gps" gps_message)) nd1 in
  let nd3 := exec (step json_dumps write_timer) nd2 in
  json_file nd0 = Some ("[" ++ newline)%string /\
  json_index_counter nd0 = Some 0 /\
  json_file nd1 =
    Some ("[" ++ newline ++
          json_dumps 0
            [("/gps", gps_message); ("time", PyFloat (inject_Z 0 * (1 # 2)))])%string /\
  json_index_counter nd1 = Some 1 /\
  dict_keys (sub_topic_names nd2) = ["/gps"] /\
  (data_to_write nd2 ≫= dict_get "/gps") = Some gps_message /\
  truthy gps_message = true /\
  json_file nd3 = json_file nd1 /\
  json_index_counter nd3 = Some 1.
Proof. split_and!; reflexivity. Qed.

End WriteToJson.

(** *** The command line *)

Lemma contains_elem_of key keys : contains key keys = true <-> key ∈ keys.
Proof.
  unfold contains. induction keys as [|k keys IH]; simpl.
  - split; [done | by intros ?%elem_of_nil].
  - rewrite orb_true_iff, IH, elem_of_cons.
    destruct (String.eqb_spec key k) as [->|Hne]; [tauto|].
    split; intros [?|?]; auto; congruence.
Qed.

Lemma not_contains key keys : contains key keys = false -> key ∉ keys.
Proof. intros Hc Hk%contains_elem_of. congruence. Qed.

Lemma index_first x pre post :
  x ∉ pre -> index x (pre ++ x :: post) = Some (length pre).
Proof.
  induction pre as [|a pre IH]; simpl; intros Hx.
  - by rewrite String.eqb_refl.
  - apply not_elem_of_cons in Hx as [Hne Hx].
    destruct (String.eqb_spec a x) as [->|_]; [done|].
    by rewrite (IH Hx).
Qed.

Lemma index_absent x l : x ∉ l -> index x l = None.
Proof.
  induction l as [|a l IH]; simpl; intros Hx; [done|].
  apply not_elem_of_cons in Hx as [Hne Hx].
  destruct (String.eqb_spec a x) as [->|_]; [done|].
  by rewrite (IH Hx).
Qed.

(** X9: the argument after the first occurrence of the flag decides:
    collection is enabled exactly when it is the string ["true"]. *)
Theorem flag_value_decides name pre value post :
  contains name pre = false ->
  is_collection_enabled name (pre ++ name :: value :: post) =
    returned (String.eqb value "true").
Proof.
  intros Hx%not_contains. unfold is_collection_enabled.
  rewrite (index_first _ _ _ Hx).
  replace (length pre + 1)%nat with (length pre + 1 + 0)%nat by lia.
  rewrite lookup_app_r by lia.
  by replace (length pre + 1 + 0 - length pre)%nat with 1%nat by lia.
Qed.

(** X10: without the flag on the command line, collection is off: the
    [ValueError] of [index] is caught. *)
Theorem absent_flag_disables name argv :
  contains name argv = false ->
  is_collection_enabled name argv = returned false.
Proof.
  intros Hx%not_contains. unfold is_collection_enabled.
  by rewrite (index_absent _ _ Hx).
Qed.

(** X11: with the flag as the last argument, the function raises
    [IndexError], which its [except ValueError] does not catch. *)
Theorem flag_without_value_raises name pre :
  contains name pre = false ->
  is_collection_enabled name (pre ++ [name]) = raised_IndexError.
Proof.
  intros Hx%not_contains. unfold is_collection_enabled.
  rewrite (index_first _ _ _ Hx).
  rewrite lookup_ge_None_2; [done|]. rewrite length_app. simpl. lia.
Qed.

(** *** Initialisation *)

Ltac unfold_node :=
  unfold json_file_write;
  unfold attribute, set_sub_topic_names, set_topic_name, create_subscription,
    set_data_to_write, set_json_index_counter, set_json_file, set_writer,
    DataCollection.log, get, put.

(** The loop of [__init_subscriptions] over pairs of known types. *)
Lemma subscribe_known ps nd :
  (forall p, p ∈ ps -> contains (snd p) (msg_types_dict nd) = true) ->
  for_each (fun '(name, msg_type_name) =>
      set_topic_name name;;
      nd ← get;
      (if negb (contains msg_type_name (msg_types_dict nd))
       then DataCollection.log ERROR (msg_type_does_not_exist msg_type_name)
       else mret tt);;
      set_sub_topic_names (dict_set name msg_type_name (sub_topic_names nd));;
      (if contains msg_type_name (msg_types_dict nd)
       then create_subscription name
       else raise KeyError)) ps nd
  = (Return tt, subscribed ps nd).
Proof.
  revert nd. induction ps as [|[name ty] ps IH]; intros nd Hk.
  - destruct nd. unfold subscribed. simpl. by rewrite app_nil_r.
  - assert (Hty : contains ty (msg_types_dict nd) = true)
      by (apply (Hk (name, ty)); left).
    cbn [for_each]. unfold_monad. unfold_node. unfold_monad. cbn.
    unfold contains in Hty. rewrite Hty. cbn.
    rewrite IH by (intros p Hp; apply Hk; by right).
    f_equal. unfold subscribed. cbn. f_equal.
    + rewrite last_cons. by destruct (last ps).
    + by rewrite <- app_assoc.
Qed.

(** The loop of [__init_subscriptions] when the type of one pair is not
    known and the types before it are. *)
Lemma subscribe_unknown ps name ty ps' nd :
  (forall p, p ∈ ps -> contains (snd p) (msg_types_dict nd) = true) ->
  contains ty (msg_types_dict nd) = false ->
  let nd1 := subscribed ps nd in
  for_each (fun '(name, msg_type_name) =>
      set_topic_name name;;
      nd ← get;
      (if negb (contains msg_type_name (msg_types_dict nd))
       then DataCollection.log ERROR (msg_type_does_not_exist msg_type_name)
       else mret tt);;
      set_sub_topic_names (dict_set name msg_type_name (sub_topic_names nd));;
      (if contains msg_type_name (msg_types_dict nd)
       then create_subscription name
       else raise KeyError)) (ps ++ (name, ty) :: ps') nd
  = (Raise KeyError,
     mkNode (parameters nd1) (msg_types_dict nd1)
       (dict_set name ty (sub_topic_names nd1)) (Some name)
       (subscriptions nd1) (data_to_write nd1) (json_index_counter nd1)
       (json_file nd1) (writer nd1)
       (logger nd1 ++ [(ERROR, msg_type_does_not_exist ty)])).
Proof.
  revert nd. induction ps as [|[name0 ty0] ps IH]; intros nd Hk Hty nd1.
  - subst nd1. cbn [app for_each]. unfold_monad. unfold_node. unfold_monad. cbn.
    unfold contains in Hty. rewrite Hty. cbn. unfold raise.
    by rewrite app_nil_r.
  - assert (Hty0 : contains ty0 (msg_types_dict nd) = true)
      by (apply (Hk (name0, ty0)); left).
    cbn [app for_each]. unfold_monad. unfold_node. unfold_monad. cbn.
    unfold contains in Hty0. rewrite Hty0. cbn.
    rewrite IH; [| intros p Hp; apply Hk; by right | done].
    subst nd1. f_equal. unfold subscribed. cbn. f_equal.
    by rewrite <- app_assoc.
Qed.

(** *** Dictionaries *)

Lemma dict_set_new {V : Type} key (value : V) d :
  key ∉ dict_keys d -> dict_set key value d = d ++ [(key, value)].
Proof.
  induction d as [|[k v] d IH]; simpl; intros Hk; [done|].
  apply not_elem_of_cons in Hk as [Hne Hk].
  destruct (String.eqb_spec k key) as [->|_]; [done|].
  by rewrite (IH Hk).
Qed.

Lemma dict_keys_set_old {V : Type} key (value : V) d :
  key ∈ dict_keys d -> dict_keys (dict_set key value d) = dict_keys d.
Proof.
  induction d as [|[k v] d IH]; simpl; intros Hk; [by apply elem_of_nil in Hk|].
  destruct (String.eqb_spec k key) as [->|Hne]; [done|].
  simpl. f_equal. apply IH. apply elem_of_cons in Hk as [?|?]; [congruence|done].
Qed.

Lemma dict_keys_set {V : Type} key (value : V) d :
  dict_keys (dict_set key value d) =
    if contains key (dict_keys d) then dict_keys d else dict_keys d ++ [key].
Proof.
  destruct (contains key (dict_keys d)) eqn:E.
  - apply dict_keys_set_old. by apply contains_elem_of.
  - rewrite dict_set_new.
    + unfold dict_keys. by rewrite map_app.
    + intros Hk%contains_elem_of. congruence.
Qed.

Lemma dict_keys_set_NoDup {V : Type} key (value : V) d :
  NoDup (dict_keys d) -> NoDup (dict_keys (dict_set key value d)).
Proof.
  intros Hd. rewrite dict_keys_set.
  destruct (contains key (dict_keys d)) eqn:E; [done|].
  apply NoDup_app. split; [done|]. split; [|apply NoDup_singleton].
  intros k Hk ->%list_elem_of_singleton.
  apply contains_elem_of in Hk. congruence.
Qed.

Lemma elem_of_dict_keys_set {V : Type} key (value : V) d k :
  k ∈ dict_keys (dict_set key value d) <-> k = key \/ k ∈ dict_keys d.
Proof.
  rewrite dict_keys_set.
  destruct (contains key (dict_keys d)) eqn:E.
  - apply contains_elem_of in E. split; [auto | by intros [->|?]].
  - rewrite elem_of_app, list_elem_of_singleton. tauto.
Qed.

(** The names recorded by the loop of [__init_subscriptions]. *)
Lemma recorded_names (ps : list (string * string)) d :
  NoDup (dict_keys d) ->
  let d' := fold_left (fun d p => dict_set (fst p) (snd p) d) ps d in
  NoDup (dict_keys d') /\
  forall k, k ∈ dict_keys d' <-> k ∈ dict_keys d \/ k ∈ map fst ps.
Proof.
  revert d. induction ps as [|[name ty] ps IH]; intros d Hd; simpl.
  - split; [done|]. intros k. rewrite elem_of_nil. tauto.
  - destruct (IH (dict_set name ty d) (dict_keys_set_NoDup _ _ _ Hd)) as [H1 H2].
    split; [done|]. intros k. rewrite H2, elem_of_dict_keys_set, elem_of_cons.
    tauto.
Qed.

(** The loop of [__init_json_file] over names that are not keys yet. *)
Lemma blank_entries names d :
  NoDup (dict_keys d ++ names) ->
  fold_left (fun d name => dict_set name PyNone d) names d =
    d ++ map (fun name => (name, PyNone)) names.
Proof.
  revert d. induction names as [|name names IH]; intros d Hd; simpl.
  - by rewrite app_nil_r.
  - apply NoDup_app in Hd as (Hd & Hdn & Hn).
    apply NoDup_cons in Hn as [Hname Hn].
    assert (name ∉ dict_keys d) by (intros Hk; apply (Hdn _ Hk); left).
    rewrite dict_set_new by done.
    rewrite IH; [by rewrite <- app_assoc|].
    unfold dict_keys. rewrite map_app. simpl. rewrite <- app_assoc. simpl.
    apply NoDup_app. split; [done|]. split; [|by apply NoDup_cons].
    intros k Hk. by apply Hdn.
Qed.

Lemma blank_loop (f : string -> M Node unit) names nd d :
  (forall name nd d,
     data_to_write nd = Some d ->
     f name nd =
       (Return tt,
        mkNode (parameters nd) (msg_types_dict nd) (sub_topic_names nd)
          (topic_name nd) (subscriptions nd) (Some (dict_set name PyNone d))
          (json_index_counter nd) (json_file nd) (writer nd) (logger nd))) ->
  data_to_write nd = Some d ->
  for_each f names nd
  = (Return tt,
     mkNode (parameters nd) (msg_types_dict nd) (sub_topic_names nd)
       (topic_name nd) (subscriptions nd)
       (Some (fold_left (fun d name => dict_set name PyNone d) names d))
       (json_index_counter nd) (json_file nd) (writer nd) (logger nd)).
Proof.
  intros Hf. revert nd d. induction names as [|name names IH]; intros nd d Hd.
  - destruct nd. simpl in *. by subst.
  - cbn [for_each]. unfold_monad. rewrite (Hf name nd d Hd).
    by erewrite IH.
Qed.

(** [__init__] when every type is known. *)
Lemma init_known params msg_classes exists_already :
  (forall p, p ∈ topic_pairs params ->
             contains (snd p) (known_types msg_classes) = true) ->
  init params msg_classes exists_already =
    (Return tt,
     mkNode params (known_types msg_classes)
       (recorded (topic_pairs params))
       (fst <$> last (topic_pairs params))
       (map fst (topic_pairs params))
       (if json params
        then Some (map (fun name => (name, PyNone))
                     (dict_keys (recorded (topic_pairs params))))
        else None)
       (if json params then Some 0 else None)
       (if json params then Some ("[" ++ newline)%string else None)
       (if bag params then Some [] else None)
       (if json params && exists_already
        then [(WARN, json_file_already_exists (file_name params))] else [])).
Proof.
  intros Hk. unfold init, init_subscriptions.
  unfold_monad. unfold set_sub_topic_names at 1. unfold get at 1 2, put at 1.
  unfold_monad. cbn [sub_topics parameters].
  fold (known_types msg_classes).
  change (zip _ _) with (topic_pairs params).
  rewrite subscribe_known by done.
  unfold subscribed, use_json, use_bag. cbn [parameters].
  assert (Hnames : NoDup (dict_keys (recorded (topic_pairs params))))
    by (apply (recorded_names (topic_pairs params) []); constructor).
  unfold init_json_file, init_ros_bag; unfold_monad; unfold_node.
  unfold_monad. cbn.
  fold (recorded (topic_pairs params)) in *.
  destruct (json params), (bag params), exists_already; cbn;
    try reflexivity;
    (erewrite (blank_loop _ _ _ []);
      [| by intros name [] d; cbn; intros -> | reflexivity]);
    cbn; rewrite blank_entries by done; reflexivity.
Qed.

Lemma every_other_cons {A : Type} (b : A) l :
  every_other (b :: l) = b :: every_other (tail l).
Proof. by destruct l. Qed.

Lemma zip_every_other l :
  zip (every_other l) (every_other (tail l)) = pairs l.
Proof.
  revert l. fix IH 1. intros [|a [|b l]]; [done|done|].
  change (zip (a :: every_other l) (every_other (b :: l)) = (a, b) :: pairs l).
  rewrite every_other_cons. simpl. f_equal. apply IH.
Qed.

Lemma pairs_trailing l x :
  Nat.Even (length l) -> pairs (l ++ [x]) = pairs l.
Proof.
  revert l. fix IH 1. intros [|a [|b l]] Hl; [done| |].
  - destruct Hl as [k Hk]. simpl in Hk. lia.
  - simpl. f_equal. apply IH. destruct Hl as [k Hk]. simpl in Hk.
    exists (k - 1)%nat. lia.
Qed.

(** [__init__] when the type of one pair is not known and the types before
    it are. *)
Lemma init_unknown params msg_classes exists_already ps name ty ps' :
  topic_pairs params = ps ++ (name, ty) :: ps' ->
  (forall p, p ∈ ps -> contains (snd p) (known_types msg_classes) = true) ->
  contains ty (known_types msg_classes) = false ->
  init params msg_classes exists_already =
    (Raise KeyError,
     mkNode params (known_types msg_classes)
       (dict_set name ty (recorded ps)) (Some name) (map fst ps)
       None None None None [(ERROR, msg_type_does_not_exist ty)]).
Proof.
  intros Hps Hk Hty. unfold init, init_subscriptions.
  unfold_monad. unfold set_sub_topic_names at 1. unfold get at 1 2, put at 1.
  unfold_monad. cbn [sub_topics parameters].
  fold (known_types msg_classes).
  change (zip _ _) with (topic_pairs params). rewrite Hps.
  by rewrite subscribe_unknown.
Qed.

(** Either every type is known, or there is a first pair whose type is
    not. *)
Lemma first_unknown (known : list string) (ps : list (string * string)) :
  (forall p, p ∈ ps -> contains (snd p) known = true) \/
  exists pre name ty post,
    ps = pre ++ (name, ty) :: post /\
    (forall p, p ∈ pre -> contains (snd p) known = true) /\
    contains ty known = false.
Proof.
  induction ps as [|[name ty] ps IH].
  - left. by intros p ?%elem_of_nil.
  - destruct (contains ty known) eqn:E.
    + destruct IH as [IH | (pre & name' & ty' & post & -> & Hpre & Hty')].
      * left. intros p [->|Hp]%elem_of_cons; [done | by apply IH].
      * right. exists ((name, ty) :: pre), name', ty', post.
        split; [done|]. split; [|done].
        intros p [->|Hp]%elem_of_cons; [done | by apply Hpre].
    + right. exists [], name, ty, ps. split; [done|]. split; [|done].
      by intros p ?%elem_of_nil.
Qed.

Lemma topic_pairs_pairs params : topic_pairs params = pairs (topics params).
Proof. apply zip_every_other. Qed.

Lemma all_known_pairs msg_classes params :
  all_known msg_classes (topics params) = true ->
  forall p, p ∈ topic_pairs params ->
            contains (snd p) (known_types msg_classes) = true.
Proof.
  unfold all_known. rewrite topic_pairs_pairs, forallb_forall.
  intros H p Hp. apply H. by apply list_elem_of_In.
Qed.

(** X12: when every listed type is a class of [custom_interfaces.msg],
    [__init__] returns with one subscription for each pair of the topics
    list, in the order of the list and with repetitions; the variable
    [topic_name] that all callbacks share is left at the last name; and
    [__sub_topic_names] has each subscribed name as a key once. *)
Theorem init_subscribes_in_order params msg_classes exists_already :
  all_known msg_classes (topics params) = true ->
  let nd := snd (init params msg_classes exists_already) in
  fst (init params msg_classes exists_already) = Return tt /\
  subscriptions nd = map fst (pairs (topics params)) /\
  topic_name nd = fst <$> last (pairs (topics params)) /\
  NoDup (dict_keys (sub_topic_names nd)) /\
  (forall name, name ∈ dict_keys (sub_topic_names nd) <-> name ∈ subscriptions nd).
Proof.
  intros Hk0.
  pose proof (all_known_pairs _ _ Hk0) as Hk. clear Hk0. rewrite <- ?topic_pairs_pairs in *.
  rewrite (init_known _ _ _ Hk). cbn.
  destruct (recorded_names (topic_pairs params) []) as [H1 H2]; [constructor|].
  split_and!; [done..|].
  intros name. rewrite (H2 name). cbn. rewrite elem_of_nil. tauto.
Qed.

(** X13: with JSON logging on, [__init__] leaves the file at the opening
    bracket, the index at 0 and [None] under every key of
    [__sub_topic_names]; it warns exactly when the file existed. *)
Theorem json_file_starts_blank params msg_classes exists_already :
  all_known msg_classes (topics params) = true ->
  json params = true ->
  let nd := snd (init params msg_classes exists_already) in
  json_file nd = Some ("[" ++ newline)%string /\
  json_index_counter nd = Some 0 /\
  data_to_write nd =
    Some (map (fun name => (name, PyNone)) (dict_keys (sub_topic_names nd))) /\
  logger nd =
    if exists_already
    then [(WARN, json_file_already_exists (file_name params))] else [].
Proof.
  intros Hk0 Hj.
  pose proof (all_known_pairs _ _ Hk0) as Hk. clear Hk0. rewrite <- ?topic_pairs_pairs in *.
  rewrite (init_known _ _ _ Hk). cbn. by rewrite Hj.
Qed.

(** X14: at the first pair whose type is not a class of
    [custom_interfaces.msg], [__init__] logs the error and then raises
    [KeyError]: the name is recorded, the subscriptions are those of the
    pairs before, and neither the JSON file nor the bag is opened. *)
Theorem init_raises_on_unknown_type
    params msg_classes exists_already pre name ty post :
  pairs (topics params) = pre ++ (name, ty) :: post ->
  forallb (fun p => contains (snd p) (known_types msg_classes)) pre = true ->
  contains ty (known_types msg_classes) = false ->
  let nd := snd (init params msg_classes exists_already) in
  fst (init params msg_classes exists_already) = Raise KeyError /\
  subscriptions nd = map fst pre /\
  dict_get name (sub_topic_names nd) = Some ty /\
  logger nd = [(ERROR, msg_type_does_not_exist ty)] /\
  json_file nd = None /\
  writer nd = None.
Proof.
  intros Hps Hk Hty. rewrite <- ?topic_pairs_pairs in *.
  assert (Hk' : forall p, p ∈ pre ->
                  contains (snd p) (known_types msg_classes) = true).
  { intros p Hp%list_elem_of_In. revert p Hp. by apply forallb_forall. }
  clear Hk. rename Hk' into Hk.
  rewrite (init_unknown _ _ _ _ _ _ _ Hps Hk Hty). cbn.
  split_and!; try done. apply dict_get_set_eq.
Qed.

(** X15: a name at the end of the topics list without a type after it is
    dropped by [zip]: [__init__] ends the same way, error or not, as
    without it. *)
Theorem trailing_name_is_ignored params msg_classes exists_already name :
  Nat.Even (length (topics params)) ->
  let params' :=
    mkParameters (file_name params) (qos_depth params) (topics params ++ [name])
      (bag params) (json params) (write_period_sec params) in
  let nd := snd (init params msg_classes exists_already) in
  let nd' := snd (init params' msg_classes exists_already) in
  fst (init params' msg_classes exists_already) =
    fst (init params msg_classes exists_already) /\
  subscriptions nd' = subscriptions nd /\
  sub_topic_names nd' = sub_topic_names nd /\
  topic_name nd' = topic_name nd /\
  data_to_write nd' = data_to_write nd /\
  json_file nd' = json_file nd /\
  writer nd' = writer nd /\
  logger nd' = logger nd.
Proof.
  intros Hl params'.
  assert (Hps : topic_pairs params' = topic_pairs params).
  { rewrite !topic_pairs_pairs. apply (pairs_trailing _ _ Hl). }
  destruct (first_unknown (known_types msg_classes) (topic_pairs params))
    as [Hk | (pre & name' & ty & post & Hpre & Hk & Hty)].
  - rewrite (init_known params _ _ Hk).
    rewrite (init_known params') by (by rewrite Hps).
    rewrite Hps. cbn. by split_and!.
  - rewrite (init_unknown params _ _ _ _ _ _ Hpre Hk Hty).
    rewrite (init_unknown params' _ _ pre name' ty post) by (done || congruence).
    cbn. by split_and!.
Qed.

(** *** Runs of the node *)

Lemma dict_get_blank name names :
  name ∈ names ->
  dict_get name (map (fun name => (name, PyNone)) names) = Some PyNone.
Proof.
  induction names as [|k names IH]; simpl; intros Hn.
  - by apply elem_of_nil in Hn.
  - destruct (String.eqb_spec k name); [done|].
    apply IH. apply elem_of_cons in Hn as [?|?]; [congruence | done].
Qed.

(** What one callback of a subscription does: it touches [data_to_write]
    and the bag only, and files the message under the current value of
    [topic_name]. *)
Lemma delivery msg nd :
  let nd' := exec (name ← attribute topic_name; general_sub_callback msg name) nd in
  parameters nd' = parameters nd /\
  topic_name nd' = topic_name nd /\
  subscriptions nd' = subscriptions nd /\
  json_file nd' = json_file nd /\
  json_index_counter nd' = json_index_counter nd /\
  (data_to_write nd' = data_to_write nd \/
   exists name d,
     topic_name nd = Some name /\ data_to_write nd = Some d /\
     data_to_write nd' = Some (dict_set name msg d)) /\
  (writer nd' = writer nd \/
   exists name records,
     topic_name nd = Some name /\ writer nd = Some records /\
     writer nd' = Some (records ++ [(name, msg)])).
Proof.
  destruct nd as [params types names var subs data counter file bag lg].
  unfold exec, general_sub_callback, use_json, use_bag.
  unfold_monad. unfold_node. unfold_monad. cbn.
  destruct var as [name|]; cbn; [|by split_and!; auto].
  destruct (json params), data as [d|], (DataCollection.bag params),
    bag as [records|]; cbn; split_and!; eauto 10.
Qed.

Lemma append_assoc (s1 s2 s3 : string) :
  ((s1 ++ s2) ++ s3 = s1 ++ (s2 ++ s3))%string.
Proof. induction s1 as [|c s1 IH]; simpl; [done | by rewrite IH]. Qed.

Lemma joined_snoc entries entry :
  joined (entries ++ [entry]) =
    (joined entries ++
     (if Z.of_nat (length entries) >? 0 then "," ++ newline ++ entry
      else entry))%string.
Proof.
  induction entries as [|e entries IH]; [done|].
  change (joined ((e :: entries) ++ [entry]))
    with (match entries ++ [entry] with
          | [] => e
          | _ => (e ++ "," ++ newline ++ joined (entries ++ [entry]))%string
          end).
  replace (Z.of_nat (length (e :: entries)) >? 0) with true
    by (symmetry; apply Z.gtb_lt; simpl; lia).
  destruct entries as [|e' entries]; [done|].
  rewrite IH.
  replace (Z.of_nat (length (e' :: entries)) >? 0) with true
    by (symmetry; apply Z.gtb_lt; simpl; lia).
  change (joined (e :: e' :: entries))
    with (e ++ "," ++ newline ++ joined (e' :: entries))%string.
  cbn [app]. by rewrite !append_assoc.
Qed.

(** [__shutdown_callback] in closed form, on a node whose storage files
    are open. *)
Lemma shutdown_closed_form nd closed :
  (use_json nd = true -> is_Some (json_file nd)) ->
  (use_bag nd = true -> is_Some (writer nd)) ->
  exists nd',
    shutdown_callback (nd, closed) =
      (Return tt,
       (nd', closed ++ (if use_json nd then [the_json_file] else []) ++
                       (if use_bag nd then [the_bag] else []))) /\
    json_file nd' =
      (if use_json nd then (fun text => text ++ newline ++ "]")%string <$> json_file nd
       else json_file nd) /\
    json_index_counter nd' = json_index_counter nd /\
    writer nd' = writer nd.
Proof.
  destruct nd as [params types names var subs data counter file bag lg].
  unfold shutdown_callback, use_json, use_bag, lift, close.
  unfold_monad. unfold_node. unfold_monad. cbn.
  intros Hf Hw.
  destruct (json params), (DataCollection.bag params); cbn.
  - destruct (Hf eq_refl) as [text ->], (Hw eq_refl) as [records ->]. cbn.
    eexists. split; [by rewrite <- app_assoc | done].
  - destruct (Hf eq_refl) as [text ->]. cbn.
    eexists. split; [reflexivity | done].
  - destruct (Hw eq_refl) as [records ->]. cbn.
    eexists. split; [reflexivity | done].
  - eexists. split; [by rewrite app_nil_r | done].
Qed.

Section Runs.

Variable json_dumps : Z -> list (string * PyValue) -> string.

Lemma run_keeps (P : Node -> Prop) events nd :
  (forall e nd, P nd -> P (exec (step json_dumps e) nd)) ->
  P nd -> P (exec (run json_dumps events) nd).
Proof. apply for_each_keeps. Qed.

Lemma message_keeps (P : Node -> Prop) topic msg nd :
  (forall nd,
     P nd ->
     P (exec (name ← attribute topic_name; general_sub_callback msg name) nd)) ->
  P nd -> P (exec (step json_dumps (message topic msg)) nd).
Proof.
  intros HP Hnd. unfold exec. simpl. unfold_monad. unfold get. simpl.
  apply (for_each_keeps P); [|done]. intros _ s. apply HP.
Qed.

Lemma write_to_json_idle nd d :
  data_to_write nd = Some d ->
  all (dict_values d) = false ->
  write_to_json json_dumps nd = (Return tt, nd).
Proof.
  destruct nd as [params types names var subs data counter file bag lg].
  simpl. intros -> Hall.
  unfold write_to_json, attribute, get. unfold_monad. cbn.
  by rewrite Hall.
Qed.

Lemma write_to_json_frame nd :
  let nd' := exec (write_to_json json_dumps) nd in
  parameters nd' = parameters nd /\
  topic_name nd' = topic_name nd /\
  subscriptions nd' = subscriptions nd /\
  writer nd' = writer nd /\
  (is_Some (json_file nd) -> is_Some (json_file nd')) /\
  (json_file nd = None -> json_file nd' = None).
Proof.
  destruct nd as [params types names var subs data counter file bag lg].
  unfold exec, write_to_json. unfold_monad. unfold_node. unfold_monad. cbn.
  destruct data as [d|]; cbn; [|done].
  destruct (all (dict_values d)); cbn; [|done].
  destruct counter as [index|]; cbn; [|done].
  destruct file as [text|]; cbn; done.
Qed.

(** X16: the callbacks of all subscriptions read the one variable
    [topic_name], so they file every message under the name of the last
    topic; the entry of a topic of another name stays [None], and the timer
    never writes. *)
Theorem other_topics_stay_empty
    params msg_classes exists_already last_name last_type name events :
  all_known msg_classes (topics params) = true ->
  json params = true ->
  last (pairs (topics params)) = Some (last_name, last_type) ->
  contains name (map fst (pairs (topics params))) = true ->
  name <> last_name ->
  let nd := exec (run json_dumps events)
              (snd (init params msg_classes exists_already)) in
  (data_to_write nd ≫= dict_get name) = Some PyNone /\
  json_index_counter nd = Some 0 /\
  json_file nd = Some ("[" ++ newline)%string.
Proof.
  intros Hk0 Hj Hlast Hname%contains_elem_of Hne.
  pose proof (all_known_pairs _ _ Hk0) as Hk. clear Hk0.
  set (P := fun nd : Node =>
              topic_name nd = Some last_name /\
              (data_to_write nd ≫= dict_get name) = Some PyNone /\
              json_index_counter nd = Some 0 /\
              json_file nd = Some ("[" ++ newline)%string).
  cut (P (exec (run json_dumps events)
            (snd (init params msg_classes exists_already)))).
  { by intros (_ & ? & ? & ?). }
  apply run_keeps.
  - intros [topic msg|] nd0 Hnd0.
    + revert Hnd0. apply message_keeps. clear nd0.
      intros nd0 (Ht & Hd & Hc & Hf).
      destruct (delivery msg nd0) as (_ & Ht' & _ & Hf' & Hc' & Hd' & _).
      unfold P. rewrite Ht', Hf', Hc'. split_and!; try done.
      destruct Hd' as [-> | (name' & d & Ht0 & Hd0 & ->)]; [done|].
      rewrite Hd0 in Hd. simpl in *.
      rewrite dict_get_set_ne; [done | congruence].
    + destruct Hnd0 as (Ht & Hd & Hc & Hf).
      destruct (data_to_write nd0) as [d|] eqn:Ed; [|done]. simpl in Hd.
      unfold exec. simpl.
      rewrite (write_to_json_skips json_dumps nd0 d name PyNone Ed Hd eq_refl).
      unfold P. simpl. rewrite Ed. by split_and!.
  - rewrite <- ?topic_pairs_pairs in *.
    rewrite (init_known _ _ _ Hk). cbn. rewrite Hj, Hlast. unfold P. cbn.
    split_and!; try done.
    apply dict_get_blank.
    apply (recorded_names (topic_pairs params) []); [constructor | by right].
Qed.

(** X17: every record in the bag carries the name of the last topic,
    whatever topic its message came from. *)
Theorem bag_records_carry_the_last_name
    params msg_classes exists_already events records name msg :
  all_known msg_classes (topics params) = true ->
  let nd := exec (run json_dumps events)
              (snd (init params msg_classes exists_already)) in
  writer nd = Some records ->
  (name, msg) ∈ records ->
  fst <$> last (pairs (topics params)) = Some name.
Proof.
  intros Hk0 nd Hw Hin.
  pose proof (all_known_pairs _ _ Hk0) as Hk. clear Hk0.
  set (P := fun nd : Node =>
              topic_name nd = fst <$> last (pairs (topics params)) /\
              forall records name msg,
                writer nd = Some records -> (name, msg) ∈ records ->
                topic_name nd = Some name).
  cut (P nd).
  { intros [Ht HP]. rewrite <- Ht. by apply (HP records name msg). }
  apply run_keeps.
  - clear. intros [topic msg|] nd0 Hnd0.
    + revert Hnd0. apply message_keeps. clear nd0.
      intros nd0 [Ht Hr].
      destruct (delivery msg nd0) as (_ & Ht' & _ & _ & _ & _ & Hw').
      unfold P. rewrite Ht'. split; [done|].
      intros records name msg'.
      destruct Hw' as [-> | (name' & records' & Ht0 & Hw0 & ->)]; [apply Hr|].
      intros [= <-] [Hin | Hin%list_elem_of_singleton]%elem_of_app.
      * by apply (Hr records' name msg').
      * congruence.
    + destruct Hnd0 as [Ht Hr].
      destruct (write_to_json_frame nd0) as (_ & Ht' & _ & Hw' & _ & _).
      unfold P. simpl. rewrite Ht', Hw'. split; [exact Ht | exact Hr].
  - rewrite <- ?topic_pairs_pairs in *.
    rewrite (init_known _ _ _ Hk). unfold P. cbn.
    split; [by rewrite topic_pairs_pairs|].
    intros records' name' msg'. destruct (bag params); [|done].
    intros [= <-] ?%elem_of_nil. done.
Qed.

(** X18: with JSON logging off the timer callback still runs, and it
    raises [AttributeError] whenever it fires: [__data_to_write] was never
    assigned. *)
Theorem timer_raises_without_json params msg_classes exists_already events :
  all_known msg_classes (topics params) = true ->
  json params = false ->
  let nd := exec (run json_dumps events)
              (snd (init params msg_classes exists_already)) in
  write_to_json json_dumps nd = (Raise AttributeError, nd).
Proof.
  intros Hk0 Hj nd.
  pose proof (all_known_pairs _ _ Hk0) as Hk. clear Hk0.
  set (P := fun nd : Node =>
              json (parameters nd) = false /\ data_to_write nd = None).
  assert (Hraise : forall nd, P nd ->
            write_to_json json_dumps nd = (Raise AttributeError, nd)).
  { clear. intros [params types names var subs data counter file bag lg] [_ Hd].
    simpl in Hd. subst data. reflexivity. }
  apply Hraise. apply run_keeps.
  - clear -Hraise. intros [topic msg|] nd0 Hnd0.
    + revert Hnd0. apply message_keeps. clear nd0.
      intros nd0 [Hj Hd].
      destruct (delivery msg nd0) as (Hp' & _ & _ & _ & _ & Hd' & _).
      unfold P. rewrite Hp'. split; [done|].
      destruct Hd' as [-> | (name' & d & _ & Hd0 & _)]; [done | congruence].
    + unfold exec. simpl. by rewrite (Hraise _ Hnd0).
  - rewrite <- ?topic_pairs_pairs in *.
    rewrite (init_known _ _ _ Hk). unfold P. cbn. by rewrite Hj.
Qed.

(** X19: unless the last topic is called ["time"], the JSON file never
    holds more than the entry of index 0, whatever messages arrive and
    however often the timer fires. *)
Theorem json_file_holds_one_entry_at_most
    params msg_classes exists_already events :
  all_known msg_classes (topics params) = true ->
  json params = true ->
  fst <$> last (pairs (topics params)) <> Some "time" ->
  let nd := exec (run json_dumps events)
              (snd (init params msg_classes exists_already)) in
  (json_index_counter nd = Some 0 /\
   json_file nd = Some ("[" ++ newline)%string) \/
  (json_index_counter nd = Some 1 /\
   exists d, json_file nd = Some (("[" ++ newline) ++ json_dumps 0 d)%string).
Proof.
  intros Hk0 Hj Hlast.
  pose proof (all_known_pairs _ _ Hk0) as Hk. clear Hk0.
  set (fresh := fun nd : Node =>
                  topic_name nd <> Some "time" /\
                  is_Some (data_to_write nd) /\
                  json_index_counter nd = Some 0 /\
                  json_file nd = Some ("[" ++ newline)%string).
  set (written := fun nd : Node =>
                    blocked nd /\
                    json_index_counter nd = Some 1 /\
                    exists d,
                      json_file nd =
                        Some (("[" ++ newline) ++ json_dumps 0 d)%string).
  cut ((fun nd => fresh nd \/ written nd)
         (exec (run json_dumps events)
            (snd (init params msg_classes exists_already)))).
  { intros [(_ & _ & ? & ?) | (_ & ? & ?)]; [by left | by right]. }
  apply run_keeps.
  - clear. intros e nd [Hnd | (Hb & Hc & Hf)].
    + destruct e as [topic msg|].
      * left. revert Hnd. apply message_keeps. clear nd.
        intros nd (Ht & Hd & Hc & Hf).
        destruct (delivery msg nd) as (_ & Ht' & _ & Hf' & Hc' & Hd' & _).
        unfold fresh. rewrite Ht', Hf', Hc'. split_and!; try done.
        destruct Hd' as [-> | (? & ? & _ & _ & ->)]; [done | by eexists].
      * destruct Hnd as (Ht & [d Hd] & Hc & Hf).
        destruct (all (dict_values d)) eqn:Hall.
        -- right.
           destruct (write_to_json_writes json_dumps nd d 0 _ Hd Hc Hf Hall)
             as (_ & Hd' & Hc' & Hf').
           destruct (write_to_json_frame nd) as (_ & Ht' & _).
           unfold written. simpl. split_and!.
           ++ eexists _, _. split; [exact Hd'|].
              split; [apply dict_get_set_eq|].
              split; [apply Qmult_0_l|]. by rewrite Ht'.
           ++ exact Hc'.
           ++ eexists. exact Hf'.
        -- left. unfold exec. simpl.
           rewrite (write_to_json_idle nd d Hd Hall). simpl.
           unfold fresh. split_and!; try done; by exists d.
    + right. destruct (step_blocked json_dumps e nd Hb) as (Hb' & Hf' & Hc').
      unfold written. rewrite Hf', Hc'. by split_and!.
  - left. rewrite <- ?topic_pairs_pairs in *.
    rewrite (init_known _ _ _ Hk). unfold fresh. cbn. rewrite Hj.
    split_and!; try done; by eexists.
Qed.

(** X20: the JSON file is the opening bracket followed by the entries
    written so far, one for each index below the counter, separated by a
    comma and a newline. *)
Theorem json_file_lists_the_entries params msg_classes exists_already events :
  all_known msg_classes (topics params) = true ->
  json params = true ->
  let nd := exec (run json_dumps events)
              (snd (init params msg_classes exists_already)) in
  exists ds,
    json_index_counter nd = Some (Z.of_nat (length ds)) /\
    json_file nd =
      Some (("[" ++ newline) ++
            joined (imap (fun i d => json_dumps (Z.of_nat i) d) ds))%string.
Proof.
  intros Hk0 Hj.
  pose proof (all_known_pairs _ _ Hk0) as Hk. clear Hk0.
  set (P := fun nd : Node =>
              is_Some (data_to_write nd) /\
              exists ds,
                json_index_counter nd = Some (Z.of_nat (length ds)) /\
                json_file nd =
                  Some (("[" ++ newline) ++
                        joined (imap (fun i d => json_dumps (Z.of_nat i) d) ds))%string).
  cut (P (exec (run json_dumps events)
            (snd (init params msg_classes exists_already)))).
  { by intros [_ ?]. }
  apply run_keeps.
  - clear. intros [topic msg|] nd Hnd.
    + revert Hnd. apply message_keeps. clear nd.
      intros nd (Hd & ds & Hc & Hf).
      destruct (delivery msg nd) as (_ & _ & _ & Hf' & Hc' & Hd' & _).
      unfold P. rewrite Hf', Hc'. split; [|by exists ds].
      destruct Hd' as [-> | (? & ? & _ & _ & ->)]; [done | by eexists].
    + destruct Hnd as ([d Hd] & ds & Hc & Hf).
      destruct (all (dict_values d)) eqn:Hall.
      * destruct (write_to_json_writes json_dumps nd d _ _ Hd Hc Hf Hall)
          as (_ & Hd' & Hc' & Hf').
        unfold P. simpl. split; [by eexists|].
        eexists (ds ++ [_]). rewrite Hc', Hf'. split.
        -- f_equal. rewrite length_app. simpl. lia.
        -- f_equal. rewrite imap_app. cbn [imap].
           rewrite joined_snoc, length_imap. unfold compose.
           rewrite Nat.add_0_r. by rewrite append_assoc.
      * unfold exec. simpl. rewrite (write_to_json_idle nd d Hd Hall). simpl.
        split; [by exists d | by exists ds].
  - rewrite <- ?topic_pairs_pairs in *.
    rewrite (init_known _ _ _ Hk). unfold P. cbn. rewrite Hj.
    split; [by eexists|]. by exists [].
Qed.

(** X21: after any run, [__shutdown_callback] does not raise; it writes
    the closing bracket and closes the JSON file, and only then the bag. *)
Theorem shutdown_closes_the_array params msg_classes exists_already events :
  all_known msg_classes (topics params) = true ->
  let nd := exec (run json_dumps events)
              (snd (init params msg_classes exists_already)) in
  exists nd',
    shutdown_callback (nd, []) =
      (Return tt,
       (nd', (if json params then [the_json_file] else []) ++
             (if bag params then [the_bag] else []))) /\
    json_file nd' =
      (if json params then (fun text => text ++ newline ++ "]")%string <$> json_file nd
       else None).
Proof.
  intros Hk0 nd.
  pose proof (all_known_pairs _ _ Hk0) as Hk. clear Hk0.
  set (P := fun nd : Node =>
              parameters nd = params /\
              (if json params then is_Some (json_file nd) else json_file nd = None) /\
              (bag params = true -> is_Some (writer nd))).
  assert (HP : P nd).
  { apply run_keeps.
    - clear. intros [topic msg|] nd Hnd.
      + revert Hnd. apply message_keeps. clear nd.
        intros nd (Hp & Hf & Hw).
        destruct (delivery msg nd) as (Hp' & _ & _ & Hf' & _ & _ & Hw').
        unfold P. rewrite Hp', Hf'. split_and!; try done.
        intros Hb. destruct Hw' as [-> | (? & ? & _ & _ & ->)]; [auto | by eexists].
      + destruct Hnd as (Hp & Hf & Hw).
        destruct (write_to_json_frame nd)
          as (Hp' & _ & _ & Hw' & Hf' & Hn').
        unfold P. simpl. rewrite Hp', Hw'. split_and!; try done.
        destruct (json params); auto.
    - rewrite <- ?topic_pairs_pairs in *.
      rewrite (init_known _ _ _ Hk). unfold P. cbn.
      split; [done|]. destruct (json params), (bag params); split; done. }
  destruct HP as (Hp & Hf & Hw).
  destruct (shutdown_closed_form nd []) as (nd' & E & Hf' & _).
  - unfold use_json. rewrite Hp. intros Hj. by rewrite Hj in Hf.
  - unfold use_bag. by rewrite Hp.
  - exists nd'. unfold use_json, use_bag in *. rewrite Hp in *.
    split; [done|]. rewrite Hf'. destruct (json params); [done | done].
Qed.

End Runs.

(** *** Instances of the properties *)

Lemma flag_value_decides_witness :
  contains "--enable-data-collection" ["data_collection_node"] = false /\
  is_collection_enabled "--enable-data-collection"
    (["data_collection_node"] ++
     "--enable-data-collection" :: "true" :: ["--ros-args"]) =
    returned (String.eqb "true" "true").
Proof.
  split; [reflexivity|].
  exact (flag_value_decides "--enable-data-collection" ["data_collection_node"]
           "true" ["--ros-args"] eq_refl).
Defined.

Lemma absent_flag_disables_witness :
  contains "--enable-data-collection" ["data_collection_node"; "--ros-args"] = false /\
  is_collection_enabled "--enable-data-collection"
    ["data_collection_node"; "--ros-args"] = returned false.
Proof.
  split; [reflexivity|].
  exact (absent_flag_disables "--enable-data-collection"
           ["data_collection_node"; "--ros-args"] eq_refl).
Defined.

Lemma flag_without_value_raises_witness :
  contains "--enable-data-collection" ["data_collection_node"] = false /\
  is_collection_enabled "--enable-data-collection"
    (["data_collection_node"] ++ ["--enable-data-collection"]) = raised_IndexError.
Proof.
  split; [reflexivity|].
  exact (flag_without_value_raises "--enable-data-collection"
           ["data_collection_node"] eq_refl).
Defined.

Lemma init_subscribes_in_order_witness :
  let msg_classes := ["GPS"; "WindSensors"; "_hidden"] in
  all_known msg_classes (topics two_topics) = true /\
  (let nd := snd (init two_topics msg_classes false) in
   fst (init two_topics msg_classes false) = Return tt /\
   subscriptions nd = map fst (pairs (topics two_topics)) /\
   topic_name nd = fst <$> last (pairs (topics two_topics)) /\
   NoDup (dict_keys (sub_topic_names nd)) /\
   (forall name,
      name ∈ dict_keys (sub_topic_names nd) <-> name ∈ subscriptions nd)).
Proof.
  intros msg_classes.
  assert (Hk : all_known msg_classes (topics two_topics) = true) by reflexivity.
  split; [exact Hk|].
  exact (init_subscribes_in_order two_topics msg_classes false Hk).
Defined.

Lemma json_file_starts_blank_witness :
  all_known ["GPS"] (topics gps_parameters) = true /\
  json gps_parameters = true /\
  (let nd := snd (init gps_parameters ["GPS"] true) in
   json_file nd = Some ("[" ++ newline)%string /\
   json_index_counter nd = Some 0 /\
   data_to_write nd =
     Some (map (fun name => (name, PyNone)) (dict_keys (sub_topic_names nd))) /\
   logger nd = [(WARN, json_file_already_exists (file_name gps_parameters))]).
Proof.
  assert (Hk : all_known ["GPS"] (topics gps_parameters) = true) by reflexivity.
  assert (Hj : json gps_parameters = true) by reflexivity.
  split; [exact Hk|]. split; [exact Hj|].
  exact (json_file_starts_blank gps_parameters ["GPS"] true Hk Hj).
Defined.

Lemma init_raises_on_unknown_type_witness :
  let nd := snd (init misspelt_type ["GPS"; "WindSensors"] false) in
  pairs (topics misspelt_type) =
    [("/gps", "GPS")] ++ ("/wind_sensors", "WindSensor") :: [] /\
  fst (init misspelt_type ["GPS"; "WindSensors"] false) = Raise KeyError /\
  subscriptions nd = map fst [("/gps", "GPS")] /\
  dict_get "/wind_sensors" (sub_topic_names nd) = Some "WindSensor" /\
  logger nd = [(ERROR, msg_type_does_not_exist "WindSensor")] /\
  json_file nd = None /\
  writer nd = None.
Proof.
  intros nd.
  assert (Hps : pairs (topics misspelt_type) =
                [("/gps", "GPS")] ++ ("/wind_sensors", "WindSensor") :: [])
    by reflexivity.
  split; [exact Hps|].
  exact (init_raises_on_unknown_type misspelt_type ["GPS"; "WindSensors"] false
           [("/gps", "GPS")] "/wind_sensors" "WindSensor" [] Hps eq_refl eq_refl).
Defined.

Lemma trailing_name_is_ignored_witness :
  let params' :=
    mkParameters (file_name gps_parameters) (qos_depth gps_parameters)
      (topics gps_parameters ++ ["/wind_sensors"])
      (bag gps_parameters) (json gps_parameters)
      (write_period_sec gps_parameters) in
  let nd := snd (init gps_parameters ["GPS"] false) in
  let nd' := snd (init params' ["GPS"] false) in
  Nat.Even (length (topics gps_parameters)) /\
  fst (init params' ["GPS"] false) = fst (init gps_parameters ["GPS"] false) /\
  subscriptions nd' = subscriptions nd /\
  sub_topic_names nd' = sub_topic_names nd /\
  topic_name nd' = topic_name nd /\
  data_to_write nd' = data_to_write nd /\
  json_file nd' = json_file nd /\
  writer nd' = writer nd /\
  logger nd' = logger nd.
Proof.
  intros params' nd nd'.
  assert (Hl : Nat.Even (length (topics gps_parameters)))
    by (exists 1%nat; reflexivity).
  split; [exact Hl|].
  exact (trailing_name_is_ignored gps_parameters ["GPS"] false "/wind_sensors" Hl).
Defined.

Lemma other_topics_stay_empty_witness :
  let events :=
    [message "/gps" gps_message; message "/wind_sensors" gps_message;
     write_timer] in
  let nd := exec (run index_only events)
              (snd (init two_topics ["GPS"; "WindSensors"] false)) in
  last (pairs (topics two_topics)) = Some ("/wind_sensors", "WindSensors") /\
  "/gps" <> "/wind_sensors" /\
  (data_to_write nd ≫= dict_get "/gps") = Some PyNone /\
  json_index_counter nd = Some 0 /\
  json_file nd = Some ("[" ++ newline)%string.
Proof.
  intros events nd.
  assert (Hlast : last (pairs (topics two_topics)) =
                  Some ("/wind_sensors", "WindSensors")) by reflexivity.
  assert (Hne : "/gps" <> "/wind_sensors") by discriminate.
  split; [exact Hlast|]. split; [exact Hne|].
  exact (other_topics_stay_empty index_only two_topics ["GPS"; "WindSensors"]
           false "/wind_sensors" "WindSensors" "/gps" events
           eq_refl eq_refl Hlast eq_refl Hne).
Defined.

Lemma bag_records_carry_the_last_name_witness :
  let nd := exec (run index_only [message "/gps" gps_message])
              (snd (init two_topics ["GPS"; "WindSensors"] false)) in
  writer nd = Some [("/wind_sensors", gps_message)] /\
  fst <$> last (pairs (topics two_topics)) = Some "/wind_sensors".
Proof.
  intros nd.
  assert (Hw : writer nd = Some [("/wind_sensors", gps_message)]) by reflexivity.
  split; [exact Hw|].
  exact (bag_records_carry_the_last_name index_only two_topics
           ["GPS"; "WindSensors"] false [message "/gps" gps_message]
           [("/wind_sensors", gps_message)] "/wind_sensors" gps_message
           eq_refl Hw (list_elem_of_here _ _)).
Defined.

Lemma timer_raises_without_json_witness :
  let nd := exec (run index_only [message "/gps" gps_message])
              (snd (init bag_only ["GPS"] false)) in
  json bag_only = false /\
  write_to_json index_only nd = (Raise AttributeError, nd).
Proof.
  intros nd. split; [reflexivity|].
  exact (timer_raises_without_json index_only bag_only ["GPS"] false
           [message "/gps" gps_message] eq_refl eq_refl).
Defined.

Lemma json_file_holds_one_entry_at_most_witness :
  let events :=
    [message "/gps" gps_message; write_timer;
     message "/gps" gps_message; write_timer] in
  let nd := exec (run index_only events) (snd (init gps_parameters ["GPS"] false)) in
  fst <$> last (pairs (topics gps_parameters)) <> Some "time" /\
  ((json_index_counter nd = Some 0 /\
    json_file nd = Some ("[" ++ newline)%string) \/
   (json_index_counter nd = Some 1 /\
    exists d, json_file nd = Some (("[" ++ newline) ++ index_only 0 d)%string)).
Proof.
  intros events nd.
  assert (Hlast : fst <$> last (pairs (topics gps_parameters)) <> Some "time")
    by discriminate.
  split; [exact Hlast|].
  exact (json_file_holds_one_entry_at_most index_only gps_parameters ["GPS"]
           false events eq_refl eq_refl Hlast).
Defined.

Lemma json_file_lists_the_entries_witness :
  let events := [message "/gps" gps_message; write_timer; write_timer] in
  let nd := exec (run index_only events) (snd (init gps_parameters ["GPS"] false)) in
  json gps_parameters = true /\
  exists ds,
    json_index_counter nd = Some (Z.of_nat (length ds)) /\
    json_file nd =
      Some (("[" ++ newline) ++
            joined (imap (fun i d => index_only (Z.of_nat i) d) ds))%string.
Proof.
  intros events nd. split; [reflexivity|].
  exact (json_file_lists_the_entries index_only gps_parameters ["GPS"] false
           events eq_refl eq_refl).
Defined.

Lemma shutdown_closes_the_array_witness :
  let events := [message "/gps" gps_message; write_timer] in
  let nd := exec (run index_only events)
              (snd (init two_topics ["GPS"; "WindSensors"] false)) in
  all_known ["GPS"; "WindSensors"] (topics two_topics) = true /\
  exists nd',
    shutdown_callback (nd, []) =
      (Return tt,
       (nd', (if json two_topics then [the_json_file] else []) ++
             (if bag two_topics then [the_bag] else []))) /\
    json_file nd' =
      (if json two_topics
       then (fun text => text ++ newline ++ "]")%string <$> json_file nd
       else None).
Proof.
  intros events nd. split; [reflexivity|].
  exact (shutdown_closes_the_array index_only two_topics ["GPS"; "WindSensors"]
           false events eq_refl).
Defined.

End DataCollectionProofs.
